(** * The tekton-pipelines operand of the SSP operator

    A shallow embedding of
    [internal/operands/tekton-pipelines/tekton-pipelines.go] and the
    properties of its reconciliation and cleanup passes.

    Go slices are lists addressed by index (stdpp's [!!] and [<[_:=_]>]),
    Go maps are [gmap]s, a nil pointer is [None].  The operand keeps five
    slices whose backing arrays are those of the bundle; a closure that
    captured [&slice[i]] is represented by the kind of the slice and the
    index [i], and everything it writes goes to that element of the store. *)

From Stdlib Require Import String Ascii Bool Arith Lia.
From stdpp Require Import base option list strings gmap.

Local Open Scope string_scope.
Local Open Scope list_scope.

(** ** Kubernetes and Tekton object types (the fields the operand touches) *)

Module metav1.
Record ObjectMeta := {
  Name : string;
  Namespace : string;
  Labels : gmap string string
}.

Definition SetNamespace (ns : string) (m : ObjectMeta) : ObjectMeta :=
  {| Name := Name m; Namespace := ns; Labels := Labels m |}.
End metav1.

Module pipeline.
Inductive ParamType := ParamTypeString | ParamTypeArray | ParamTypeObject.

Record ParamValue := {
  Type_ : ParamType;
  StringVal : string;
  ArrayVal : list string;
  ObjectVal : gmap string string
}.

Record ParamSpec := {
  Name : string;
  ParamType_ : ParamType;
  ParamDescription : string;
  Default : option ParamValue
}.

Definition SetDefault (d : option ParamValue) (p : ParamSpec) : ParamSpec :=
  {| Name := Name p; ParamType_ := ParamType_ p;
     ParamDescription := ParamDescription p; Default := d |}.

Record PipelineTask := { TaskName : string; TaskRef : string }.

Record PipelineSpec := {
  Description : string;
  Tasks : list PipelineTask;
  Params : list ParamSpec;
  Workspaces : list string;
  Results : list string;
  Finally : list PipelineTask
}.

Definition SetParams (ps : list ParamSpec) (s : PipelineSpec) : PipelineSpec :=
  {| Description := Description s; Tasks := Tasks s; Params := ps;
     Workspaces := Workspaces s; Results := Results s; Finally := Finally s |}.

Record Pipeline := { ObjectMeta : metav1.ObjectMeta; Spec : PipelineSpec }.

Definition SetMeta (m : metav1.ObjectMeta) (p : Pipeline) : Pipeline :=
  {| ObjectMeta := m; Spec := Spec p |}.
Definition SetSpec (s : PipelineSpec) (p : Pipeline) : Pipeline :=
  {| ObjectMeta := ObjectMeta p; Spec := s |}.
End pipeline.

Module v1.
Record ConfigMap := {
  ConfigMapMeta : metav1.ObjectMeta;
  Data : gmap string string
}.
Definition SetConfigMapMeta (m : metav1.ObjectMeta) (c : ConfigMap) : ConfigMap :=
  {| ConfigMapMeta := m; Data := Data c |}.

Record ServiceAccount := {
  ServiceAccountMeta : metav1.ObjectMeta;
  Secrets : list string
}.
Definition SetServiceAccountMeta (m : metav1.ObjectMeta) (s : ServiceAccount)
  : ServiceAccount :=
  {| ServiceAccountMeta := m; Secrets := Secrets s |}.
End v1.

Module rbac.
Record Subject := {
  Kind : string;
  APIGroup : string;
  Name : string;
  Namespace : string
}.
Definition SetSubjectNamespace (ns : string) (s : Subject) : Subject :=
  {| Kind := Kind s; APIGroup := APIGroup s; Name := Name s; Namespace := ns |}.

Record RoleRef := { RefKind : string; RefName : string }.

Record RoleBinding := {
  RoleBindingMeta : metav1.ObjectMeta;
  Subjects : list Subject;
  Ref : RoleRef
}.
Definition SetRoleBindingMeta (m : metav1.ObjectMeta) (rb : RoleBinding)
  : RoleBinding :=
  {| RoleBindingMeta := m; Subjects := Subjects rb; Ref := Ref rb |}.
Definition SetSubjects (ss : list Subject) (rb : RoleBinding) : RoleBinding :=
  {| RoleBindingMeta := RoleBindingMeta rb; Subjects := ss; Ref := Ref rb |}.

Record PolicyRule := {
  Verbs : list string;
  APIGroups : list string;
  Resources : list string
}.

Record ClusterRole := {
  ClusterRoleMeta : metav1.ObjectMeta;
  Rules : list PolicyRule
}.
End rbac.

(** ** [regexp]: the fragment the namespace pattern is written in *)

Module regexp.
Inductive Regexp :=
| BeginText                       (* ^ *)
| Literal (s : string)
| Alternate (r1 r2 : Regexp)      (* r1|r2 *)
| Concat (r1 r2 : Regexp)
| Capture (r : Regexp).           (* (r) *)

(** [stripPrefix p s] is the rest of [s] after its prefix [p]. *)
Fixpoint stripPrefix (p s : string) : option string :=
  match p, s with
  | EmptyString, _ => Some s
  | String a p', String b s' =>
      if Ascii.eqb a b then stripPrefix p' s' else None
  | String _ _, EmptyString => None
  end.

(** All the ways [r] matches at the head of [s]: for each, whether the
    position reached is still the beginning of the text and what is left
    of the input. *)
Fixpoint matchHere (r : Regexp) (atStart : bool) (s : string)
  : list (bool * string) :=
  match r with
  | BeginText => if atStart then [(atStart, s)] else []
  | Literal p =>
      match stripPrefix p s with
      | Some rest =>
          [(match p with EmptyString => atStart | _ => false end, rest)]
      | None => []
      end
  | Alternate r1 r2 => matchHere r1 atStart s ++ matchHere r2 atStart s
  | Concat r1 r2 =>
      concat (map (fun st : bool * string => matchHere r2 (fst st) (snd st))
                  (matchHere r1 atStart s))
  | Capture r1 => matchHere r1 atStart s
  end.

Definition matchesHere (r : Regexp) (atStart : bool) (s : string) : bool :=
  match matchHere r atStart s with [] => false | _ :: _ => true end.

(** The unanchored search of [MatchString]: try every position. *)
Fixpoint search (r : Regexp) (atStart : bool) (s : string) : bool :=
  matchesHere r atStart s ||
  match s with
  | EmptyString => false
  | String _ s' => search r false s'
  end.

Definition MatchString (r : Regexp) (s : string) : bool := search r true s.
End regexp.

Module strings.
Definition HasPrefix (s p : string) : bool := String.prefix p s.
End strings.


(** ** [internal/common]: requests, results and the reconcile builder

    The package is not part of the sources.  Its data types are given with
    the fields the operand reads; what its functions do is a parameter
    ([Environment] below), or modelled from the specification where it
    says so. *)

Module common.
(** [client.Object]: an object of any of the five kinds. *)
Inductive Object :=
| OPipeline (p : pipeline.Pipeline)
| OConfigMap (cm : v1.ConfigMap)
| ORoleBinding (rb : rbac.RoleBinding)
| OServiceAccount (sa : v1.ServiceAccount)
| OClusterRole (cr : rbac.ClusterRole).

Definition GetObjectMeta (o : Object) : metav1.ObjectMeta :=
  match o with
  | OPipeline p => pipeline.ObjectMeta p
  | OConfigMap cm => v1.ConfigMapMeta cm
  | ORoleBinding rb => rbac.RoleBindingMeta rb
  | OServiceAccount sa => v1.ServiceAccountMeta sa
  | OClusterRole cr => rbac.ClusterRoleMeta cr
  end.

Definition GetName (o : Object) : string := metav1.Name (GetObjectMeta o).
Definition GetNamespace (o : Object) : string :=
  metav1.Namespace (GetObjectMeta o).

(** The typed objects that implement [client.Object]. *)
Class ClientObject (A : Type) := {
  toObject : A -> Object;
  DeepCopy : A -> A
}.

(** Modelled from the spec: the [OperationResult] enumeration, of which the
    sources name only [OperationResultUpdated]. *)
Inductive OperationResult :=
| OperationResultCreated
| OperationResultUpdated
| OperationResultUnchanged.

Definition OperationResult_eqb (a b : OperationResult) : bool :=
  match a, b with
  | OperationResultCreated, OperationResultCreated
  | OperationResultUpdated, OperationResultUpdated
  | OperationResultUnchanged, OperationResultUnchanged => true
  | _, _ => false
  end.

Record ReconcileResult := {
  Resource : Object;
  OperationResult_ : OperationResult
}.

(** Modelled from the spec: a [CleanupResult] records whether a deletion
    succeeded, was a no-op (already absent), or failed. *)
Inductive CleanupOutcome := CleanupDeleted | CleanupAbsent | CleanupFailed.

Record CleanupResult := {
  CleanupResource : Object;
  Outcome : CleanupOutcome
}.

Record FeatureGates := { DeployTektonTaskResources : bool }.
Record TektonPipelines := { Namespace : string }.

(** Both parts of the spec are pointers and may be nil. *)
Record SSPSpec := {
  FeatureGates_ : option FeatureGates;
  TektonPipelines_ : option TektonPipelines
}.

Record SSPStatus := { ObservedVersion : string }.

Record SSP := {
  InstanceNamespace : string;
  Spec : SSPSpec;
  Status : SSPStatus
}.

(** [CrdList] is kept as its one method, [CrdExists].  The logger, the
    client and the context of the Go request are effects on the [World]. *)
Record Request := {
  Instance : SSP;
  CrdExists : string -> bool
}.

Definition error := string.

(** How a call ends: with a value, with a Go [error], or in a panic. *)
Inductive outcome (A : Type) :=
| Done (a : A)
| Fail (e : error)
| Panic.
Arguments Done {A} a.
Arguments Fail {A} e.
Arguments Panic {A}.

(** [ResourceUpdateFunc]: it receives the desired and the found object by
    pointer and writes into them; [None] is a panic. *)
Definition ResourceUpdateFunc := Object -> Object -> option (Object * Object).

(** The builder that [CreateOrUpdate(request)] starts.  The resource is
    held by pointer: [builderResource] is what the pointer refers to when
    [Reconcile()] is called. *)
Record reconcileBuilder (A : Type) := {
  builderRequest : Request;
  builderResource : A;
  isClusterRes : bool;
  appLabels : option (string * string);
  updateFunc : option ResourceUpdateFunc
}.
Arguments builderRequest {A} _.
Arguments builderResource {A} _.
Arguments isClusterRes {A} _.
Arguments appLabels {A} _.
Arguments updateFunc {A} _.

Definition CreateOrUpdate (request : Request) : Request := request.

Definition ClusterResource {A} (resource : A) (request : Request)
  : reconcileBuilder A :=
  {| builderRequest := request; builderResource := resource;
     isClusterRes := true; appLabels := None; updateFunc := None |}.

Definition WithAppLabels {A} (name component : string) (b : reconcileBuilder A)
  : reconcileBuilder A :=
  {| builderRequest := builderRequest b; builderResource := builderResource b;
     isClusterRes := isClusterRes b; appLabels := Some (name, component);
     updateFunc := updateFunc b |}.

Definition UpdateFunc {A} (f : ResourceUpdateFunc) (b : reconcileBuilder A)
  : reconcileBuilder A :=
  {| builderRequest := builderRequest b; builderResource := builderResource b;
     isClusterRes := isClusterRes b; appLabels := appLabels b;
     updateFunc := Some f |}.

Record LogEntry := { V : nat; Msg : string }.

(** A call made to the cluster: the object submitted for create-or-update
    as it was at the call, or the object whose deletion was requested. *)
Inductive GatewayCall :=
| CallCreateOrUpdate (o : Object)
| CallDelete (o : Object).
End common.

(** The five kinds.  A value here is the content of an object, not its
    place in memory: a deep copy has the content of its original, and what
    sets it apart is that nothing done to it is written back to the slice
    the original sits in. *)
#[global] Instance Pipeline_ClientObject : common.ClientObject pipeline.Pipeline :=
  {| common.toObject := common.OPipeline; common.DeepCopy := fun p => p |}.
#[global] Instance ConfigMap_ClientObject : common.ClientObject v1.ConfigMap :=
  {| common.toObject := common.OConfigMap; common.DeepCopy := fun cm => cm |}.
#[global] Instance RoleBinding_ClientObject : common.ClientObject rbac.RoleBinding :=
  {| common.toObject := common.ORoleBinding; common.DeepCopy := fun rb => rb |}.
#[global] Instance ServiceAccount_ClientObject
  : common.ClientObject v1.ServiceAccount :=
  {| common.toObject := common.OServiceAccount; common.DeepCopy := fun sa => sa |}.
#[global] Instance ClusterRole_ClientObject : common.ClientObject rbac.ClusterRole :=
  {| common.toObject := common.OClusterRole; common.DeepCopy := fun cr => cr |}.

(** What the operand takes from its surroundings: the cluster behind the
    builder's [Reconcile()] and behind a deletion, and the values of
    [common.GetOperatorVersion()], [common.GetVirtioImage()] and
    [common.AppComponentTektonPipelines].

    [builderReconcile] returns the resource as the call leaves it behind
    the pointer it was given, the cluster after the call and the result. *)
Class Environment := {
  Cluster : Type;
  builderReconcile :
    forall (A : Type), common.ClientObject A ->
      common.reconcileBuilder A -> Cluster ->
      A * Cluster * common.outcome common.ReconcileResult;
  deleteObject :
    common.Request -> common.Object -> Cluster ->
    Cluster * common.CleanupOutcome;
  GetOperatorVersion : string;
  GetVirtioImage : string;
  AppComponentTektonPipelines : string
}.

(** ** [tekton-bundle]: the bundle the operand is built from *)

Module tektonbundle.
Record Bundle := {
  Pipelines : list pipeline.Pipeline;
  ConfigMaps : list v1.ConfigMap;
  RoleBindings : list rbac.RoleBinding;
  ServiceAccounts : list v1.ServiceAccount;
  ClusterRoles : list rbac.ClusterRole
}.
End tektonbundle.

(** ** The operand *)

Definition namespacePattern : string := "^(openshift|kube)-".
Definition operandName : string := "tekton-pipelines".
Definition tektonCrd : string := "tasks.tekton.dev".

(** [regexp.MustCompile(namespacePattern)]. *)
Definition namespaceRegex : regexp.Regexp :=
  regexp.Concat regexp.BeginText
    (regexp.Concat
       (regexp.Capture
          (regexp.Alternate (regexp.Literal "openshift") (regexp.Literal "kube")))
       (regexp.Literal "-")).

Record tektonPipelines := {
  pipelines : list pipeline.Pipeline;
  configMaps : list v1.ConfigMap;
  roleBindings : list rbac.RoleBinding;
  serviceAccounts : list v1.ServiceAccount;
  clusterRoles : list rbac.ClusterRole
}.

(** [New] copies the five slice headers: the operand's slices and the
    bundle's are the same arrays. *)
Definition New (bundle : tektonbundle.Bundle) : tektonPipelines :=
  {| pipelines := tektonbundle.Pipelines bundle;
     configMaps := tektonbundle.ConfigMaps bundle;
     roleBindings := tektonbundle.RoleBindings bundle;
     serviceAccounts := tektonbundle.ServiceAccounts bundle;
     clusterRoles := tektonbundle.ClusterRoles bundle |}.

Definition Name (t : tektonPipelines) : string := operandName.

Definition setPipelines (l : list pipeline.Pipeline) (t : tektonPipelines) :=
  {| pipelines := l; configMaps := configMaps t; roleBindings := roleBindings t;
     serviceAccounts := serviceAccounts t; clusterRoles := clusterRoles t |}.
Definition setConfigMaps (l : list v1.ConfigMap) (t : tektonPipelines) :=
  {| pipelines := pipelines t; configMaps := l; roleBindings := roleBindings t;
     serviceAccounts := serviceAccounts t; clusterRoles := clusterRoles t |}.
Definition setRoleBindings (l : list rbac.RoleBinding) (t : tektonPipelines) :=
  {| pipelines := pipelines t; configMaps := configMaps t; roleBindings := l;
     serviceAccounts := serviceAccounts t; clusterRoles := clusterRoles t |}.
Definition setServiceAccounts (l : list v1.ServiceAccount) (t : tektonPipelines) :=
  {| pipelines := pipelines t; configMaps := configMaps t;
     roleBindings := roleBindings t; serviceAccounts := l;
     clusterRoles := clusterRoles t |}.
Definition setClusterRoles (l : list rbac.ClusterRole) (t : tektonPipelines) :=
  {| pipelines := pipelines t; configMaps := configMaps t;
     roleBindings := roleBindings t; serviceAccounts := serviceAccounts t;
     clusterRoles := l |}.

(** A [common.ReconcileFunc] made by one of the five factories: the closure
    over the pointer to element [i] of the slice of its kind. *)
Inductive ReconcileFunc :=
| pipelineFunc (i : nat)
| configMapFunc (i : nat)
| serviceAccountFunc (i : nat)
| clusterRoleFunc (i : nat)
| roleBindingFunc (i : nat).

Import common.

(** The value of [request.Instance.Spec.FeatureGates.DeployTektonTaskResources]
    where it can be read: there is none when [spec.featureGates] is nil, and
    the Go expression panics there. *)
Definition deployTektonTaskResources (request : Request) : option bool :=
  match FeatureGates_ (Spec (Instance request)) with
  | Some featureGates => Some (DeployTektonTaskResources featureGates)
  | None => None
  end.

(** A request as [request] but for an SSP instance that leaves
    [spec.featureGates] out. *)
Definition withoutFeatureGates (request : Request) : Request :=
  {| Instance :=
       {| InstanceNamespace := InstanceNamespace (Instance request);
          Spec := {| FeatureGates_ := None;
                     TektonPipelines_ :=
                       TektonPipelines_ (Spec (Instance request)) |};
          Status := Status (Instance request) |};
     CrdExists := CrdExists request |}.

Section Operand.
Context {Env : Environment}.

(** The state a pass runs in: the operand's slices, the cluster, the calls
    made to it so far and the lines logged so far. *)
Record World := {
  operand : tektonPipelines;
  cluster : Cluster;
  calls : list GatewayCall;
  logs : list LogEntry
}.

Definition setOperand (t : tektonPipelines) (w : World) : World :=
  {| operand := t; cluster := cluster w; calls := calls w; logs := logs w |}.

Definition Info (v : nat) (msg : string) (w : World) : World :=
  {| operand := operand w; cluster := cluster w; calls := calls w;
     logs := logs w ++ [{| V := v; Msg := msg |}] |}.

Definition M (A : Type) : Type := World -> outcome A * World.

Definition ret {A} (a : A) : M A := fun w => (Done a, w).

Definition bind {A B} (m : M A) (k : A -> M B) : M B :=
  fun w =>
    match m w with
    | (Done a, w') => k a w'
    | (Fail e, w') => (Fail e, w')
    | (Panic, w') => (Panic, w')
    end.

(** The builder's [Reconcile()]: the call is recorded with the resource as
    submitted; the resource comes back as the call left it. *)
Definition builder_Reconcile {A} `{ClientObject A} (b : reconcileBuilder A)
  (w : World) : A * outcome ReconcileResult * World :=
  let '(resource, c, result) := builderReconcile A _ b (cluster w) in
  (resource, result,
   {| operand := operand w; cluster := c;
      calls := calls w ++ [CallCreateOrUpdate (toObject (builderResource b))];
      logs := logs w |}).

Definition operandComponent : string := AppComponentTektonPipelines.

Definition isUpgradingNow (request : Request) : bool :=
  negb (String.eqb (ObservedVersion (Status (Instance request)))
                   GetOperatorVersion).

(** *** The update function of a pipeline

    [foundPipeline.Spec = newPipeline.Spec] copies the slice header of
    [Params]: the loop that follows writes into the one array both objects
    now refer to, so both come back with the same parameters. *)
Definition pipelineUpdateFunc : ResourceUpdateFunc := fun newRes foundRes =>
  match newRes with
  | OPipeline newPipeline =>
      match foundRes with
      | OPipeline foundPipeline =>
          let foundPipeline :=
            pipeline.SetSpec (pipeline.Spec newPipeline) foundPipeline in
          let params := pipeline.Params (pipeline.Spec foundPipeline) in
          let params :=
            foldl (fun params i =>
                     match params !! i with
                     | Some param =>
                         if strings.HasPrefix (pipeline.Name param) "virtioContainer"
                         then alter (pipeline.SetDefault
                                       (Some {| pipeline.Type_ := pipeline.ParamTypeString;
                                                pipeline.StringVal := GetVirtioImage;
                                                pipeline.ArrayVal := [];
                                                pipeline.ObjectVal := ∅ |}))
                                    i params
                         else params
                     | None => params
                     end)
                  params (seq 0 (length params)) in
          Some (OPipeline (pipeline.SetSpec
                             (pipeline.SetParams params (pipeline.Spec newPipeline))
                             newPipeline),
                OPipeline (pipeline.SetSpec
                             (pipeline.SetParams params (pipeline.Spec foundPipeline))
                             foundPipeline))
      | _ => None
      end
  | _ => None
  end.

(** *** The five closures

    Each reads the element it points to, writes its overrides into it,
    hands the pointer to the builder and leaves in the slice what the
    builder's [Reconcile()] left behind the pointer.  An index outside the
    slice cannot be built by the factories; it is a panic here. *)
Definition reconcilePipeline (i : nat) (request : Request) : M ReconcileResult :=
  fun w =>
    match pipelines (operand w) !! i with
    | None => (Panic, w)
    | Some p =>
        let p :=
          match TektonPipelines_ (Spec (Instance request)) with
          | Some tp =>
              if negb (String.eqb (Namespace tp) "")
              then pipeline.SetMeta
                     (metav1.SetNamespace (Namespace tp) (pipeline.ObjectMeta p)) p
              else p
          | None => p
          end in
        let '(p, result, w) :=
          builder_Reconcile
            (UpdateFunc pipelineUpdateFunc
               (WithAppLabels operandName operandComponent
                  (ClusterResource p (CreateOrUpdate request)))) w in
        (result, setOperand (setPipelines (<[i:=p]> (pipelines (operand w)))
                                          (operand w)) w)
    end.

Definition reconcileConfigMap (i : nat) (request : Request) : M ReconcileResult :=
  fun w =>
    match configMaps (operand w) !! i with
    | None => (Panic, w)
    | Some cm =>
        let cm :=
          match TektonPipelines_ (Spec (Instance request)) with
          | Some tp =>
              if negb (String.eqb (Namespace tp) "")
              then v1.SetConfigMapMeta
                     (metav1.SetNamespace (Namespace tp) (v1.ConfigMapMeta cm)) cm
              else cm
          | None => cm
          end in
        let '(cm, result, w) :=
          builder_Reconcile
            (WithAppLabels operandName operandComponent
               (ClusterResource cm (CreateOrUpdate request))) w in
        (result, setOperand (setConfigMaps (<[i:=cm]> (configMaps (operand w)))
                                           (operand w)) w)
    end.

Definition reconcileServiceAccount (i : nat) (request : Request)
  : M ReconcileResult :=
  fun w =>
    match serviceAccounts (operand w) !! i with
    | None => (Panic, w)
    | Some sa =>
        let namespace := InstanceNamespace (Instance request) in
        let sa :=
          if String.eqb (metav1.Namespace (v1.ServiceAccountMeta sa)) ""
          then v1.SetServiceAccountMeta
                 (metav1.SetNamespace namespace (v1.ServiceAccountMeta sa)) sa
          else sa in
        let '(sa, result, w) :=
          builder_Reconcile
            (WithAppLabels operandName operandComponent
               (ClusterResource sa (CreateOrUpdate request))) w in
        (result, setOperand (setServiceAccounts
                               (<[i:=sa]> (serviceAccounts (operand w)))
                               (operand w)) w)
    end.

Definition reconcileClusterRole (i : nat) (request : Request) : M ReconcileResult :=
  fun w =>
    match clusterRoles (operand w) !! i with
    | None => (Panic, w)
    | Some cr =>
        let '(cr, result, w) :=
          builder_Reconcile
            (WithAppLabels operandName operandComponent
               (ClusterResource cr (CreateOrUpdate request))) w in
        (result, setOperand (setClusterRoles (<[i:=cr]> (clusterRoles (operand w)))
                                             (operand w)) w)
    end.

Definition reconcileRoleBinding (i : nat) (request : Request) : M ReconcileResult :=
  fun w =>
    match roleBindings (operand w) !! i with
    | None => (Panic, w)
    | Some rb =>
        let namespace := InstanceNamespace (Instance request) in
        let rb :=
          if String.eqb (metav1.Namespace (rbac.RoleBindingMeta rb)) ""
          then rbac.SetRoleBindingMeta
                 (metav1.SetNamespace namespace (rbac.RoleBindingMeta rb)) rb
          else rb in
        let rb :=
          foldl (fun rb j =>
                   rbac.SetSubjects
                     (alter (rbac.SetSubjectNamespace namespace) j (rbac.Subjects rb))
                     rb)
                rb (seq 0 (length (rbac.Subjects rb))) in
        let '(rb, result, w) :=
          builder_Reconcile
            (WithAppLabels operandName operandComponent
               (ClusterResource rb (CreateOrUpdate request))) w in
        (result, setOperand (setRoleBindings (<[i:=rb]> (roleBindings (operand w)))
                                             (operand w)) w)
    end.

(** Calling a [ReconcileFunc]. *)
Definition call (f : ReconcileFunc) (request : Request) : M ReconcileResult :=
  match f with
  | pipelineFunc i => reconcilePipeline i request
  | configMapFunc i => reconcileConfigMap i request
  | serviceAccountFunc i => reconcileServiceAccount i request
  | clusterRoleFunc i => reconcileClusterRole i request
  | roleBindingFunc i => reconcileRoleBinding i request
  end.

(** *** The five factories *)
Definition reconcileTektonPipelinesFuncs (pipelines : list pipeline.Pipeline)
  : list ReconcileFunc :=
  foldl (fun funcs i => funcs ++ [pipelineFunc i]) [] (seq 0 (length pipelines)).

Definition reconcileConfigMapsFuncs (configMaps : list v1.ConfigMap)
  : list ReconcileFunc :=
  foldl (fun funcs i => funcs ++ [configMapFunc i]) [] (seq 0 (length configMaps)).

Definition reconcileServiceAccountsFuncs (r : Request) (sas : list v1.ServiceAccount)
  : list ReconcileFunc :=
  foldl (fun funcs i =>
           match sas !! i with
           | Some sa =>
               if match TektonPipelines_ (Spec (Instance r)) with
                  | Some tp =>
                      negb (String.eqb (Namespace tp) "") &&
                      (negb (regexp.MatchString namespaceRegex (Namespace tp)) &&
                       String.eqb (metav1.Name (v1.ServiceAccountMeta sa)) "pipeline")
                  | None => false
                  end
              then funcs
              else funcs ++ [serviceAccountFunc i]
           | None => funcs
           end)
        [] (seq 0 (length sas)).

Definition reconcileClusterRolesFuncs (crs : list rbac.ClusterRole)
  : list ReconcileFunc :=
  foldl (fun funcs i => funcs ++ [clusterRoleFunc i]) [] (seq 0 (length crs)).

Definition reconcileRoleBindingsFuncs (rbs : list rbac.RoleBinding)
  : list ReconcileFunc :=
  foldl (fun funcs i => funcs ++ [roleBindingFunc i]) [] (seq 0 (length rbs)).

(** Modelled from the spec: [common.CollectResourceStatus], the engine of
    the pass.  It calls the functions in order; the first error ends the
    pass, the functions after it are not called and no result is returned. *)
Fixpoint CollectResourceStatus (request : Request) (funcs : list ReconcileFunc)
  : M (list ReconcileResult) :=
  match funcs with
  | [] => ret []
  | f :: funcs =>
      bind (call f request) (fun status =>
      bind (CollectResourceStatus request funcs) (fun res =>
      ret (status :: res)))
  end.

(** [Reconcile].  Its first line reads through [spec.featureGates] without
    a nil test: a nil pointer there is a panic before anything else is
    done. *)
Definition Reconcile (request : Request) : M (list ReconcileResult) :=
  fun w =>
    let t := operand w in
    match FeatureGates_ (Spec (Instance request)) with
    | None => (Panic, w)
    | Some featureGates =>
    if negb (DeployTektonTaskResources featureGates)
    then
      (Done [],
       Info 1 "Tekton Pipelines resources were not deployed, because spec.featureGates.deployTektonTaskResources is set to false" w)
    else if negb (CrdExists request tektonCrd)
    then (Fail ("Tekton CRD " ++ tektonCrd ++ " does not exist")%string, w)
    else
      let reconcileFunc := [] in
      let reconcileFunc := reconcileFunc ++ reconcileClusterRolesFuncs (clusterRoles t) in
      let reconcileFunc := reconcileFunc ++ reconcileTektonPipelinesFuncs (pipelines t) in
      let reconcileFunc := reconcileFunc ++ reconcileConfigMapsFuncs (configMaps t) in
      let reconcileFunc := reconcileFunc ++ reconcileRoleBindingsFuncs (roleBindings t) in
      let reconcileFunc :=
        reconcileFunc ++ reconcileServiceAccountsFuncs request (serviceAccounts t) in
      match CollectResourceStatus request reconcileFunc w with
      | (Fail err, w) => (Fail err, w)
      | (Panic, w) => (Panic, w)
      | (Done reconcileTektonBundleResults, w) =>
          let upgradingNow := isUpgradingNow request in
          (Done reconcileTektonBundleResults,
           foldl (fun w r =>
                    if negb upgradingNow &&
                       OperationResult_eqb (OperationResult_ r) OperationResultUpdated
                    then Info 0 ("Changes reverted in tekton pipeline: "
                                 ++ GetName (Resource r))%string w
                    else w)
                 w reconcileTektonBundleResults)
      end
    end.

(** Modelled from the spec: [common.DeleteAll], the cleanup engine.  It
    requests the deletion of every object it is given, in order, and
    returns one result for each; a deletion that fails is recorded in its
    result and the rest are still attempted. *)
Fixpoint DeleteAll (request : Request) (objects : list Object)
  : M (list CleanupResult) :=
  match objects with
  | [] => ret []
  | o :: objects =>
      bind (fun w =>
              let '(c, out) := deleteObject request o (cluster w) in
              (Done {| CleanupResource := o; Outcome := out |},
               {| operand := operand w; cluster := c;
                  calls := calls w ++ [CallDelete o]; logs := logs w |}))
           (fun result =>
      bind (DeleteAll request objects) (fun results =>
      ret (result :: results)))
  end.

Definition Cleanup (request : Request) : M (list CleanupResult) :=
  fun w =>
    let t := operand w in
    let objects := [] in
    let objects :=
      foldl (fun objects p => objects ++ [toObject (DeepCopy p)]) objects (pipelines t) in
    let objects :=
      foldl (fun objects cm => objects ++ [toObject (DeepCopy cm)]) objects (configMaps t) in
    let objects :=
      foldl (fun objects rb => objects ++ [toObject (DeepCopy rb)]) objects (roleBindings t) in
    let objects :=
      foldl (fun objects sa => objects ++ [toObject (DeepCopy sa)]) objects
            (serviceAccounts t) in
    let objects :=
      foldl (fun objects cr => objects ++ [toObject (DeepCopy cr)]) objects
            (clusterRoles t) in
    DeleteAll request objects w.
End Operand.

(** ** The list of functions a pass runs, and what it is expected to do *)

Section Expected.
Context {Env : Environment}.

(** The list [Reconcile] builds in [reconcileFunc]. *)
Definition passFuncs (request : Request) (t : tektonPipelines) : list ReconcileFunc :=
  reconcileClusterRolesFuncs (clusterRoles t)
  ++ reconcileTektonPipelinesFuncs (pipelines t)
  ++ reconcileConfigMapsFuncs (configMaps t)
  ++ reconcileRoleBindingsFuncs (roleBindings t)
  ++ reconcileServiceAccountsFuncs request (serviceAccounts t).

(** The namespace override of a request, when one is set. *)
Definition namespaceOverride (request : Request) : option string :=
  match TektonPipelines_ (Spec (Instance request)) with
  | Some tp => if String.eqb (Namespace tp) "" then None else Some (Namespace tp)
  | None => None
  end.

Definition withNamespace (ns : string) (m : metav1.ObjectMeta) : metav1.ObjectMeta :=
  metav1.SetNamespace ns m.

Definition defaultNamespace (ns : string) (m : metav1.ObjectMeta) : metav1.ObjectMeta :=
  if String.eqb (metav1.Namespace m) "" then metav1.SetNamespace ns m else m.

Definition overridePipeline (request : Request) (p : pipeline.Pipeline)
  : pipeline.Pipeline :=
  match namespaceOverride request with
  | Some ns => pipeline.SetMeta (withNamespace ns (pipeline.ObjectMeta p)) p
  | None => p
  end.

Definition overrideConfigMap (request : Request) (cm : v1.ConfigMap) : v1.ConfigMap :=
  match namespaceOverride request with
  | Some ns => v1.SetConfigMapMeta (withNamespace ns (v1.ConfigMapMeta cm)) cm
  | None => cm
  end.

Definition patchRoleBinding (request : Request) (rb : rbac.RoleBinding)
  : rbac.RoleBinding :=
  let namespace := InstanceNamespace (Instance request) in
  {| rbac.RoleBindingMeta := defaultNamespace namespace (rbac.RoleBindingMeta rb);
     rbac.Subjects := map (rbac.SetSubjectNamespace namespace) (rbac.Subjects rb);
     rbac.Ref := rbac.Ref rb |}.

Definition defaultServiceAccount (request : Request) (sa : v1.ServiceAccount)
  : v1.ServiceAccount :=
  v1.SetServiceAccountMeta
    (defaultNamespace (InstanceNamespace (Instance request)) (v1.ServiceAccountMeta sa))
    sa.

(** The service accounts the factory leaves out. *)
Definition skipped (request : Request) (sa : v1.ServiceAccount) : bool :=
  match namespaceOverride request with
  | Some ns =>
      negb (strings.HasPrefix ns "openshift-" || strings.HasPrefix ns "kube-")
      && String.eqb (metav1.Name (v1.ServiceAccountMeta sa)) "pipeline"
  | None => false
  end.

(** The indices of the service accounts the factory keeps. *)
Definition keptIndex (request : Request) (sas : list v1.ServiceAccount) (i : nat)
  : bool :=
  match sas !! i with
  | Some sa => negb (skipped request sa)
  | None => false
  end.

(** The object a function submits when the operand's slices are [t]. *)
Definition submission (request : Request) (t : tektonPipelines) (f : ReconcileFunc)
  : option Object :=
  match f with
  | pipelineFunc i => (fun p => OPipeline (overridePipeline request p)) <$> pipelines t !! i
  | configMapFunc i =>
      (fun cm => OConfigMap (overrideConfigMap request cm)) <$> configMaps t !! i
  | serviceAccountFunc i =>
      (fun sa => OServiceAccount (defaultServiceAccount request sa))
        <$> serviceAccounts t !! i
  | clusterRoleFunc i => OClusterRole <$> clusterRoles t !! i
  | roleBindingFunc i =>
      (fun rb => ORoleBinding (patchRoleBinding request rb)) <$> roleBindings t !! i
  end.

(** [t'] is [t] but for the element the function [f] points to. *)
Definition sameExcept (f : ReconcileFunc) (t t' : tektonPipelines) : Prop :=
  match f with
  | pipelineFunc i => exists p, t' = setPipelines (<[i:=p]> (pipelines t)) t
  | configMapFunc i => exists cm, t' = setConfigMaps (<[i:=cm]> (configMaps t)) t
  | serviceAccountFunc i =>
      exists sa, t' = setServiceAccounts (<[i:=sa]> (serviceAccounts t)) t
  | clusterRoleFunc i => exists cr, t' = setClusterRoles (<[i:=cr]> (clusterRoles t)) t
  | roleBindingFunc i => exists rb, t' = setRoleBindings (<[i:=rb]> (roleBindings t)) t
  end.

(** The builder leaves the resource behind the pointer as it was given. *)
Definition keepsResource : Prop :=
  forall (A : Type) (H : ClientObject A) (b : reconcileBuilder A) (c : Cluster),
    fst (fst (builderReconcile A H b c)) = builderResource b.

(** The objects a whole pass submits, in order. *)
Definition submissions (request : Request) (t : tektonPipelines) : list Object :=
  map OClusterRole (clusterRoles t)
  ++ map (fun p => OPipeline (overridePipeline request p)) (pipelines t)
  ++ map (fun cm => OConfigMap (overrideConfigMap request cm)) (configMaps t)
  ++ map (fun rb => ORoleBinding (patchRoleBinding request rb)) (roleBindings t)
  ++ map (fun sa => OServiceAccount (defaultServiceAccount request sa))
         (filter (fun sa => skipped request sa = false) (serviceAccounts t)).

(** What a function writes into the operand's slices when the builder
    leaves the resource it is given as it is. *)
Definition written (request : Request) (f : ReconcileFunc) (t : tektonPipelines)
  : tektonPipelines :=
  match f with
  | pipelineFunc i => setPipelines (alter (overridePipeline request) i (pipelines t)) t
  | configMapFunc i =>
      setConfigMaps (alter (overrideConfigMap request) i (configMaps t)) t
  | serviceAccountFunc i =>
      setServiceAccounts
        (alter (defaultServiceAccount request) i (serviceAccounts t)) t
  | clusterRoleFunc i => t
  | roleBindingFunc i =>
      setRoleBindings (alter (patchRoleBinding request) i (roleBindings t)) t
  end.

(** The slices after a whole pass, under the same condition. *)
Definition overridden (request : Request) (t : tektonPipelines) : tektonPipelines :=
  {| pipelines := map (overridePipeline request) (pipelines t);
     configMaps := map (overrideConfigMap request) (configMaps t);
     roleBindings := map (patchRoleBinding request) (roleBindings t);
     serviceAccounts :=
       map (fun sa => if skipped request sa then sa
                      else defaultServiceAccount request sa)
           (serviceAccounts t);
     clusterRoles := clusterRoles t |}.

(** Every object of the bundle, in the order [Cleanup] collects them. *)
Definition allObjects (t : tektonPipelines) : list Object :=
  map OPipeline (pipelines t)
  ++ map OConfigMap (configMaps t)
  ++ map ORoleBinding (roleBindings t)
  ++ map OServiceAccount (serviceAccounts t)
  ++ map OClusterRole (clusterRoles t).

(** The parameters of a pipeline after the update function: the ones named
    after the virtio container carry the image of the running operator. *)
Definition virtioParam (param : pipeline.ParamSpec) : pipeline.ParamSpec :=
  if strings.HasPrefix (pipeline.Name param) "virtioContainer"
  then pipeline.SetDefault
         (Some {| pipeline.Type_ := pipeline.ParamTypeString;
                  pipeline.StringVal := GetVirtioImage;
                  pipeline.ArrayVal := [];
                  pipeline.ObjectVal := ∅ |})
         param
  else param.

(** The line logged when the feature gate is off. *)
Definition gateOffLine : LogEntry :=
  {| V := 1;
     Msg := "Tekton Pipelines resources were not deployed, because spec.featureGates.deployTektonTaskResources is set to false" |}.

(** The line logged for a result that is an update outside an upgrade. *)
Definition revertLines (request : Request) (results : list ReconcileResult)
  : list LogEntry :=
  if isUpgradingNow request then []
  else
    map (fun r => {| V := 0;
                     Msg := ("Changes reverted in tekton pipeline: "
                             ++ GetName (Resource r))%string |})
        (filter (fun r => OperationResult_eqb (OperationResult_ r)
                                                OperationResultUpdated = true)
                results).
End Expected.

(** ** A cluster to run the operand against

    The live objects are kept in a list.  Create-or-update looks the
    submitted object up by kind, namespace and name: it creates it when it
    is absent, and otherwise applies the update function of the builder to
    a copy of the desired object and to the found one (the desired state
    replaces the found one when the builder has no update function) and
    stores the outcome when it differs.  The resource behind the pointer is
    left as it was submitted. *)

Module fake.

#[global] Instance ObjectMeta_eq_dec : EqDecision metav1.ObjectMeta.
Proof. solve_decision. Defined.
#[global] Instance ParamType_eq_dec : EqDecision pipeline.ParamType.
Proof. solve_decision. Defined.
#[global] Instance ParamValue_eq_dec : EqDecision pipeline.ParamValue.
Proof. solve_decision. Defined.
#[global] Instance ParamSpec_eq_dec : EqDecision pipeline.ParamSpec.
Proof. solve_decision. Defined.
#[global] Instance PipelineTask_eq_dec : EqDecision pipeline.PipelineTask.
Proof. solve_decision. Defined.
#[global] Instance PipelineSpec_eq_dec : EqDecision pipeline.PipelineSpec.
Proof. solve_decision. Defined.
#[global] Instance Pipeline_eq_dec : EqDecision pipeline.Pipeline.
Proof. solve_decision. Defined.
#[global] Instance ConfigMap_eq_dec : EqDecision v1.ConfigMap.
Proof. solve_decision. Defined.
#[global] Instance ServiceAccount_eq_dec : EqDecision v1.ServiceAccount.
Proof. solve_decision. Defined.
#[global] Instance Subject_eq_dec : EqDecision rbac.Subject.
Proof. solve_decision. Defined.
#[global] Instance RoleRef_eq_dec : EqDecision rbac.RoleRef.
Proof. solve_decision. Defined.
#[global] Instance RoleBinding_eq_dec : EqDecision rbac.RoleBinding.
Proof. solve_decision. Defined.
#[global] Instance PolicyRule_eq_dec : EqDecision rbac.PolicyRule.
Proof. solve_decision. Defined.
#[global] Instance ClusterRole_eq_dec : EqDecision rbac.ClusterRole.
Proof. solve_decision. Defined.
#[global] Instance Object_eq_dec : EqDecision Object.
Proof. solve_decision. Defined.

Definition sameKind (a b : Object) : bool :=
  match a, b with
  | OPipeline _, OPipeline _
  | OConfigMap _, OConfigMap _
  | ORoleBinding _, ORoleBinding _
  | OServiceAccount _, OServiceAccount _
  | OClusterRole _, OClusterRole _ => true
  | _, _ => false
  end.

Definition sameKey (a b : Object) : bool :=
  sameKind a b && String.eqb (GetNamespace a) (GetNamespace b)
  && String.eqb (GetName a) (GetName b).

Fixpoint find (o : Object) (live : list Object) : option (nat * Object) :=
  match live with
  | [] => None
  | x :: live' =>
      if sameKey o x then Some (0, x)
      else match find o live' with
           | Some (k, y) => Some (S k, y)
           | None => None
           end
  end.

Definition createOrUpdate (A : Type) (H : ClientObject A)
  (b : reconcileBuilder A) (live : list Object)
  : A * list Object * outcome ReconcileResult :=
  let desired := toObject (builderResource b) in
  match find desired live with
  | None =>
      (builderResource b, live ++ [desired],
       Done {| Resource := desired; OperationResult_ := OperationResultCreated |})
  | Some (k, found) =>
      match match updateFunc b with
            | Some f => f desired found
            | None => Some (desired, desired)
            end with
      | None => (builderResource b, live, Panic)
      | Some (_, updated) =>
          if decide (updated = found)
          then (builderResource b, live,
                Done {| Resource := found;
                        OperationResult_ := OperationResultUnchanged |})
          else (builderResource b, <[k:=updated]> live,
                Done {| Resource := updated;
                        OperationResult_ := OperationResultUpdated |})
      end
  end.

Fixpoint remove (o : Object) (live : list Object) : list Object * CleanupOutcome :=
  match live with
  | [] => ([], CleanupAbsent)
  | x :: live' =>
      if sameKey o x then (live', CleanupDeleted)
      else let '(l, out) := remove o live' in (x :: l, out)
  end.

Definition delete (request : Request) (o : Object) (live : list Object)
  : list Object * CleanupOutcome :=
  remove o live.

(** The environment of an operator running at [version]. *)
Definition env (version : string) : Environment :=
  {| Cluster := list Object;
     builderReconcile := createOrUpdate;
     deleteObject := delete;
     GetOperatorVersion := version;
     GetVirtioImage := "quay.io/kubevirt/virtio-container-disk:v1.0.0";
     AppComponentTektonPipelines := "tektonPipelines" |}.

(** A small bundle: one object of each kind, and a second service account
    with the reserved name. *)
Definition meta (name ns : string) : metav1.ObjectMeta :=
  {| metav1.Name := name; metav1.Namespace := ns; metav1.Labels := ∅ |}.

Definition param (name value : string) : pipeline.ParamSpec :=
  {| pipeline.Name := name;
     pipeline.ParamType_ := pipeline.ParamTypeString;
     pipeline.ParamDescription := "";
     pipeline.Default :=
       Some {| pipeline.Type_ := pipeline.ParamTypeString;
               pipeline.StringVal := value;
               pipeline.ArrayVal := [];
               pipeline.ObjectVal := ∅ |} |}.

Definition installer : pipeline.Pipeline :=
  {| pipeline.ObjectMeta := meta "windows-efi-installer" "kubevirt";
     pipeline.Spec :=
       {| pipeline.Description := "installs windows";
          pipeline.Tasks := [{| pipeline.TaskName := "create-vm";
                                pipeline.TaskRef := "create-vm-from-manifest" |}];
          pipeline.Params := [param "winImageDownloadURL" "";
                              param "virtioContainerImage" "static-image"];
          pipeline.Workspaces := [];
          pipeline.Results := ["baseDvName"];
          pipeline.Finally := [] |} |}.

Definition subject (name ns : string) : rbac.Subject :=
  {| rbac.Kind := "ServiceAccount"; rbac.APIGroup := "";
     rbac.Name := name; rbac.Namespace := ns |}.

Definition bundle : tektonbundle.Bundle :=
  {| tektonbundle.Pipelines := [installer];
     tektonbundle.ConfigMaps :=
       [{| v1.ConfigMapMeta := meta "windows-efi-autounattend" "";
           v1.Data := {["autounattend.xml" := "<xml/>"]} |}];
     tektonbundle.RoleBindings :=
       [{| rbac.RoleBindingMeta := meta "windows-efi-installer-binding" "";
           rbac.Subjects := [subject "pipeline" "default"; subject "builder" ""];
           rbac.Ref := {| rbac.RefKind := "ClusterRole";
                          rbac.RefName := "windows-efi-installer-role" |} |}];
     tektonbundle.ServiceAccounts :=
       [{| v1.ServiceAccountMeta := meta "pipeline" ""; v1.Secrets := [] |};
        {| v1.ServiceAccountMeta := meta "windows-efi-installer" "";
           v1.Secrets := [] |}];
     tektonbundle.ClusterRoles :=
       [{| rbac.ClusterRoleMeta := meta "windows-efi-installer-role" "";
           rbac.Rules := [{| rbac.Verbs := ["get"; "create"];
                             rbac.APIGroups := ["kubevirt.io"];
                             rbac.Resources := ["virtualmachines"] |}] |}] |}.

(** A request of the SSP instance in namespace [kubevirt]. *)
Definition request (gate crd : bool) (override : option string)
  (observed : string) : Request :=
  {| Instance :=
       {| InstanceNamespace := "kubevirt";
          Spec := {| FeatureGates_ := Some {| DeployTektonTaskResources := gate |};
                     TektonPipelines_ :=
                       (fun ns => {| Namespace := ns |}) <$> override |};
          Status := {| ObservedVersion := observed |} |};
     CrdExists := fun name => crd && String.eqb name tektonCrd |}.

(** The operand of the bundle in front of a cluster holding [live]. *)
Definition world (version : string) (live : list Object) : @World (env version) :=
  {| operand := New bundle; cluster := live : @Cluster (env version);
     calls := []; logs := [] |}.

(** A cluster role that someone edited: its rules were removed. *)
Definition edited : Object :=
  OClusterRole {| rbac.ClusterRoleMeta := meta "windows-efi-installer-role" "";
                  rbac.Rules := [] |}.

(** A pass over that cluster by an operator that is not upgrading, and a
    pass that moves the bundle to the namespace [myapp]. *)
Definition revertRequest : Request := request true true None "1.3.0".

Definition revertRun : outcome (list ReconcileResult) * @World (env "1.3.0") :=
  Eval vm_compute in
    @CollectResourceStatus (env "1.3.0") revertRequest
      (passFuncs revertRequest (New bundle)) (world "1.3.0" [edited]).

Definition revertResults : list ReconcileResult :=
  Eval vm_compute in match fst revertRun with Done results => results | _ => [] end.

Definition revertWorld : @World (env "1.3.0") := Eval vm_compute in snd revertRun.

Definition moveRequest : Request := request true true (Some "myapp") "1.3.0".

Definition moveRun : outcome (list ReconcileResult) * @World (env "1.3.0") :=
  Eval vm_compute in @Reconcile (env "1.3.0") moveRequest (world "1.3.0" []).

Definition moveResults : list ReconcileResult :=
  Eval vm_compute in match fst moveRun with Done results => results | _ => [] end.

Definition moveWorld : @World (env "1.3.0") := Eval vm_compute in snd moveRun.
End fake.

(** ** The watches of the operand *)

Module operands.
Record WatchType := {
  Object : common.Object;
  Crd : string;
  WatchFullObject : bool
}.
End operands.

(** The zero values [&pipeline.Pipeline{}], [&v1.ConfigMap{}] and so on. *)
Definition zeroMeta : metav1.ObjectMeta :=
  {| metav1.Name := ""; metav1.Namespace := ""; metav1.Labels := ∅ |}.

Definition zeroPipeline : pipeline.Pipeline :=
  {| pipeline.ObjectMeta := zeroMeta;
     pipeline.Spec :=
       {| pipeline.Description := ""; pipeline.Tasks := []; pipeline.Params := [];
          pipeline.Workspaces := []; pipeline.Results := [];
          pipeline.Finally := [] |} |}.

Definition zeroConfigMap : v1.ConfigMap :=
  {| v1.ConfigMapMeta := zeroMeta; v1.Data := ∅ |}.

Definition zeroRoleBinding : rbac.RoleBinding :=
  {| rbac.RoleBindingMeta := zeroMeta; rbac.Subjects := [];
     rbac.Ref := {| rbac.RefKind := ""; rbac.RefName := "" |} |}.

Definition zeroServiceAccount : v1.ServiceAccount :=
  {| v1.ServiceAccountMeta := zeroMeta; v1.Secrets := [] |}.

Definition zeroClusterRole : rbac.ClusterRole :=
  {| rbac.ClusterRoleMeta := zeroMeta; rbac.Rules := [] |}.

Definition WatchClusterTypes (t : tektonPipelines) : list operands.WatchType :=
  [ {| operands.Object := OPipeline zeroPipeline; operands.Crd := tektonCrd;
       operands.WatchFullObject := true |};
    {| operands.Object := OConfigMap zeroConfigMap; operands.Crd := "";
       operands.WatchFullObject := false |};
    {| operands.Object := ORoleBinding zeroRoleBinding; operands.Crd := "";
       operands.WatchFullObject := false |};
    {| operands.Object := OServiceAccount zeroServiceAccount; operands.Crd := "";
       operands.WatchFullObject := false |};
    {| operands.Object := OClusterRole zeroClusterRole; operands.Crd := "";
       operands.WatchFullObject := false |} ].

Definition WatchTypes (t : tektonPipelines) : list operands.WatchType := [].

(** The Go type of an object. *)
Inductive Kind :=
| KindPipeline
| KindConfigMap
| KindRoleBinding
| KindServiceAccount
| KindClusterRole.

Definition kindOf (o : Object) : Kind :=
  match o with
  | OPipeline _ => KindPipeline
  | OConfigMap _ => KindConfigMap
  | ORoleBinding _ => KindRoleBinding
  | OServiceAccount _ => KindServiceAccount
  | OClusterRole _ => KindClusterRole
  end.

(** The object behind a call to the cluster. *)
Definition callObject (c : GatewayCall) : Object :=
  match c with
  | CallCreateOrUpdate o => o
  | CallDelete o => o
  end.

(** Whether [Reconcile] gets as far as the engine: the feature gate is
    there and on, and the CRD is listed. *)
Definition reachesEngine (request : Request) : bool :=
  match deployTektonTaskResources request with
  | Some true => CrdExists request tektonCrd
  | _ => false
  end.

(** The lengths of the five slices. *)
Definition shape (t : tektonPipelines) : nat * nat * nat * nat * nat :=
  (length (pipelines t), length (configMaps t), length (roleBindings t),
   length (serviceAccounts t), length (clusterRoles t)).

(** Whether a call returned a value, and the results it returned. *)
Definition isDone {A} (o : outcome A) : bool :=
  match o with Done _ => true | _ => false end.

Definition resultsOf {A} (o : outcome (list A)) : list A :=
  match o with Done results => results | _ => [] end.

(** ** More runs against the cluster of [fake] *)

Module runs.
(** A cluster that lets no role binding through. *)
Definition deny (A : Type) (H : ClientObject A) (b : reconcileBuilder A)
  (live : list Object) : A * list Object * outcome ReconcileResult :=
  match toObject (builderResource b) with
  | ORoleBinding _ => (builderResource b, live, Fail "rolebindings is forbidden")
  | _ => fake.createOrUpdate A H b live
  end.

Definition denyEnv : Environment :=
  {| Cluster := list Object;
     builderReconcile := deny;
     deleteObject := fake.delete;
     GetOperatorVersion := "1.3.0";
     GetVirtioImage := "quay.io/kubevirt/virtio-container-disk:v1.0.0";
     AppComponentTektonPipelines := "tektonPipelines" |}.

Definition denyWorld : @World denyEnv :=
  {| operand := New fake.bundle; cluster := [] : @Cluster denyEnv;
     calls := []; logs := [] |}.

(** A request of an SSP instance in another namespace, with no override. *)
Definition elsewhereRequest : Request :=
  {| Instance :=
       {| InstanceNamespace := "ssp-system";
          Spec := {| FeatureGates_ := Some {| DeployTektonTaskResources := true |};
                     TektonPipelines_ := None |};
          Status := {| ObservedVersion := "1.3.0" |} |};
     CrdExists := fun name => String.eqb name tektonCrd |}.

(** An operand whose bundle holds nothing but the reserved service account. *)
Definition bareWorld : @World (fake.env "1.3.0") :=
  {| operand :=
       {| pipelines := []; configMaps := []; roleBindings := [];
          serviceAccounts :=
            [{| v1.ServiceAccountMeta := fake.meta "pipeline" ""; v1.Secrets := [] |}];
          clusterRoles := [] |};
     cluster := [] : @Cluster (fake.env "1.3.0");
     calls := []; logs := [] |}.
End runs.

(** * Properties *)

Section Properties.
Context {Env : Environment}.

(** ** The upgrade detector *)

(** C6: the upgrade detector is a function of the recorded version of the
    request and of the version of the running operator alone; it is true
    exactly when the two differ.  It therefore holds for a recorded
    ["1.2.0"] against a running ["1.3.0"], fails for ["1.3.0"] against
    ["1.3.0"], and holds for an empty recorded version. *)
Theorem isUpgradingNow_differs :
  (forall request : Request,
      isUpgradingNow request
      = negb (String.eqb (ObservedVersion (Status (Instance request)))
                         GetOperatorVersion))
  /\ (forall request : Request,
         isUpgradingNow request = true
         <-> ObservedVersion (Status (Instance request)) <> GetOperatorVersion)
  /\ @isUpgradingNow (fake.env "1.3.0") (fake.request true true None "1.2.0") = true
  /\ @isUpgradingNow (fake.env "1.3.0") (fake.request true true None "1.3.0") = false
  /\ @isUpgradingNow (fake.env "1.3.0") (fake.request true true None "") = true.
Proof.
  split; [reflexivity |].
  split; [| repeat split; reflexivity].
  intros request. unfold isUpgradingNow.
  rewrite negb_true_iff.
  destruct (String.eqb_spec (ObservedVersion (Status (Instance request)))
                            GetOperatorVersion) as [Heq | Hne].
  - split; [discriminate | intros Hd; contradiction].
  - split; [intros _; exact Hne | reflexivity].
Qed.

(** ** The guards of [Reconcile] *)

Lemma featureGates_of (request : Request) (b : bool) :
  deployTektonTaskResources request = Some b ->
  exists featureGates,
    FeatureGates_ (Spec (Instance request)) = Some featureGates
    /\ DeployTektonTaskResources featureGates = b.
Proof.
  unfold deployTektonTaskResources.
  destruct (FeatureGates_ (Spec (Instance request))) as [featureGates |];
    [| discriminate].
  intros Hb. injection Hb as Hb. exists featureGates. auto.
Qed.

(** A nil [spec.featureGates] is a panic, with nothing done. *)
Lemma Reconcile_nil_featureGates (request : Request) (w : World) :
  FeatureGates_ (Spec (Instance request)) = None ->
  Reconcile request w = (Panic, w).
Proof. intros Hnil. unfold Reconcile. rewrite Hnil. reflexivity. Qed.

Lemma featureGates_nil (request : Request) :
  deployTektonTaskResources request = None ->
  FeatureGates_ (Spec (Instance request)) = None.
Proof.
  unfold deployTektonTaskResources.
  destruct (FeatureGates_ (Spec (Instance request))); [discriminate | reflexivity].
Qed.

(** [Reconcile] stopped by the feature gate. *)
Lemma Reconcile_gate_off_eq (request : Request) (w : World) :
  deployTektonTaskResources request = Some false ->
  Reconcile request w
  = (Done [],
     {| operand := operand w; cluster := cluster w; calls := calls w;
        logs := logs w ++ [gateOffLine] |}).
Proof.
  intros Hgate. destruct (featureGates_of request false Hgate) as (fg & Hfg & Hoff).
  unfold Reconcile. rewrite Hfg, Hoff. reflexivity.
Qed.

(** C4, where the code fails it: for a request that leaves
    [spec.featureGates] out, so that no feature gate is on, [Reconcile]
    panics on its first line.  It returns neither the empty result list
    nor an error, and it logs nothing. *)
Theorem Reconcile_panics_without_featureGates (request : Request) (w : World) :
  deployTektonTaskResources (withoutFeatureGates request) = None
  /\ Reconcile (withoutFeatureGates request) w = (Panic, w).
Proof.
  split; [reflexivity |]. apply Reconcile_nil_featureGates. reflexivity.
Qed.

(** X16: when [spec.featureGates] is there and its gate is off,
    [Reconcile] returns the empty result list and no error whatever the
    bundle holds; it makes no call to the cluster, leaves the cluster and
    the operand as they were, and logs one line at verbosity 1 that says
    why nothing was deployed. *)
Theorem Reconcile_gate_off (request : Request) (w : World) :
  deployTektonTaskResources request = Some false ->
  exists w' : World,
    Reconcile request w = (Done [], w')
    /\ calls w' = calls w
    /\ cluster w' = cluster w
    /\ operand w' = operand w
    /\ logs w' = logs w ++ [gateOffLine].
Proof.
  intros Hgate. destruct (featureGates_of request false Hgate) as (fg & Hfg & Hoff).
  unfold Reconcile. rewrite Hfg, Hoff. cbn [negb].
  eexists. split; [reflexivity |]. repeat split.
Qed.

(** C5: with the feature gate on and the CRD [tasks.tekton.dev] missing,
    [Reconcile] fails with an error that names the CRD, returns no result,
    and has touched nothing: no call was made, and the cluster, the
    operand and the log are as before. *)
Theorem Reconcile_crd_missing (request : Request) (w : World) :
  deployTektonTaskResources request = Some true ->
  CrdExists request tektonCrd = false ->
  Reconcile request w = (Fail "Tekton CRD tasks.tekton.dev does not exist", w).
Proof.
  intros Hgate Hcrd. destruct (featureGates_of request true Hgate) as (fg & Hfg & Hon).
  unfold Reconcile. rewrite Hfg, Hon, Hcrd. reflexivity.
Qed.

(** C10, where the code fails it: for a request that leaves
    [spec.featureGates] out, [Reconcile] returns neither the empty result
    list nor an error, whether the CRD is there or not; so it is for the
    request of the sample whose CRD list is empty, where it panics. *)
Theorem Reconcile_panics_before_crd_check :
  (forall (request : Request) (w : World),
      fst (Reconcile (withoutFeatureGates request) w) <> Done []
      /\ forall e : error, fst (Reconcile (withoutFeatureGates request) w) <> Fail e)
  /\ CrdExists (withoutFeatureGates (fake.request false false None "1.3.0")) tektonCrd
     = false
  /\ fst (@Reconcile (fake.env "1.3.0")
            (withoutFeatureGates (fake.request false false None "1.3.0"))
            (fake.world "1.3.0" []))
     = Panic.
Proof.
  split; [| split; reflexivity].
  intros request w.
  rewrite (Reconcile_nil_featureGates (withoutFeatureGates request) w eq_refl).
  cbn [fst]. split; [discriminate | intros e; discriminate].
Qed.

(** X17: the feature gate is looked at before the CRD.  When
    [spec.featureGates] is there with its gate off and the CRD is missing,
    [Reconcile] still returns the empty result list and no error; the
    failure for a missing CRD is not seen with the feature gate off. *)
Theorem Reconcile_gate_before_crd (request : Request) (w : World) :
  deployTektonTaskResources request = Some false ->
  CrdExists request tektonCrd = false ->
  fst (Reconcile request w) = Done []
  /\ forall e : error, fst (Reconcile request w) <> Fail e.
Proof.
  intros Hgate _. destruct (featureGates_of request false Hgate) as (fg & Hfg & Hoff).
  unfold Reconcile. rewrite Hfg, Hoff. cbn [negb fst].
  split; [reflexivity | discriminate].
Qed.
End Properties.

(** ** The guards at work on the sample bundle *)

Lemma Reconcile_gate_off_witness :
  deployTektonTaskResources (fake.request false true None "1.3.0") = Some false
  /\ exists w',
      @Reconcile (fake.env "1.3.0") (fake.request false true None "1.3.0")
                 (fake.world "1.3.0" []) = (Done [], w')
      /\ calls w' = []
      /\ cluster w' = []
      /\ operand w' = New fake.bundle
      /\ logs w' = [gateOffLine].
Proof.
  split; [reflexivity |].
  exact (@Reconcile_gate_off (fake.env "1.3.0")
           (fake.request false true None "1.3.0") (fake.world "1.3.0" [])
           eq_refl).
Defined.

Lemma Reconcile_crd_missing_witness :
  @Reconcile (fake.env "1.3.0") (fake.request true false None "1.3.0")
             (fake.world "1.3.0" [])
  = (Fail "Tekton CRD tasks.tekton.dev does not exist", fake.world "1.3.0" []).
Proof.
  exact (@Reconcile_crd_missing (fake.env "1.3.0")
           (fake.request true false None "1.3.0") (fake.world "1.3.0" [])
           eq_refl eq_refl).
Defined.

Lemma Reconcile_gate_before_crd_witness :
  fst (@Reconcile (fake.env "1.3.0") (fake.request false false None "1.3.0")
                  (fake.world "1.3.0" [])) = Done []
  /\ forall e : common.error,
      fst (@Reconcile (fake.env "1.3.0") (fake.request false false None "1.3.0")
                      (fake.world "1.3.0" [])) <> Fail e.
Proof.
  exact (@Reconcile_gate_before_crd (fake.env "1.3.0")
           (fake.request false false None "1.3.0") (fake.world "1.3.0" [])
           eq_refl eq_refl).
Defined.

(** ** Loops over the indices of a slice *)

Section Loops.
Context {A : Type}.

Lemma foldl_step_ext {S B} (f g : S -> B -> S) (l : list B) (a : S) :
  (forall a x, f a x = g a x) -> foldl f a l = foldl g a l.
Proof.
  intros Hfg. revert a. induction l as [| x l IH]; intros a; simpl.
  - reflexivity.
  - rewrite Hfg. apply IH.
Qed.

(** Writing [h] of each element in place, from the first index on, comes
    to mapping [h] over the slice. *)
Lemma foldl_alter_from (h : A -> A) (todo before : list A) :
  foldl (fun acc i => alter h i acc) (before ++ todo)
        (seq (length before) (length todo))
  = before ++ map h todo.
Proof.
  revert before. induction todo as [| x todo IH]; intros before; simpl.
  - reflexivity.
  - replace (alter h (length before) (before ++ x :: todo))
      with ((before ++ [h x]) ++ todo).
    + replace (S (length before)) with (length (before ++ [h x])).
      * rewrite IH. rewrite <- app_assoc. reflexivity.
      * rewrite length_app. simpl. lia.
    + rewrite <- app_assoc. simpl.
      rewrite <- (Nat.add_0_r (length before)).
      rewrite alter_app_r. reflexivity.
Qed.

Lemma foldl_alter_seq (h : A -> A) (l : list A) :
  foldl (fun acc i => alter h i acc) l (seq 0 (length l)) = map h l.
Proof. exact (foldl_alter_from h l []). Qed.

(** The same when the write is made only for the elements that pass a
    test read from the element itself. *)
Lemma alter_when (c : A -> bool) (k : A -> A) (l : list A) (i : nat) :
  match l !! i with
  | Some x => if c x then alter k i l else l
  | None => l
  end
  = alter (fun x => if c x then k x else x) i l.
Proof.
  destruct (l !! i) as [x |] eqn:Hi.
  - destruct (c x) eqn:Hc.
    + apply list_alter_ext; [| reflexivity].
      intros y Hy. rewrite Hi in Hy. injection Hy as <-. rewrite Hc. reflexivity.
    + rewrite <- (list_alter_id (fun y => y) l i) at 1 by reflexivity.
      apply list_alter_ext; [| reflexivity].
      intros y Hy. rewrite Hi in Hy. injection Hy as <-. rewrite Hc. reflexivity.
  - rewrite <- (list_alter_id (fun y => y) l i) at 1 by reflexivity.
    apply list_alter_ext; [| reflexivity].
    intros y Hy. rewrite Hi in Hy. discriminate.
Qed.

Lemma foldl_alter_when_seq (c : A -> bool) (k : A -> A) (l : list A) :
  foldl (fun acc i =>
           match acc !! i with
           | Some x => if c x then alter k i acc else acc
           | None => acc
           end)
        l (seq 0 (length l))
  = map (fun x => if c x then k x else x) l.
Proof.
  rewrite <- foldl_alter_seq. apply foldl_step_ext.
  intros acc i. apply alter_when.
Qed.
End Loops.

Section UpdateFunc.
Context {Env : Environment}.

(** C3: on the update path the found pipeline keeps its metadata and gets
    the whole spec of the desired one, in which every parameter whose name
    starts with [virtioContainer] has the virtio image of the running
    operator as its string default in place of the default of the bundle;
    every other field of the spec, and every other parameter, is the
    desired one.  So is it for a parameter named [virtioContainerImage]. *)
Theorem pipelineUpdateFunc_replaces_spec :
  (forall newPipeline foundPipeline : pipeline.Pipeline,
      exists newRes : Object,
        pipelineUpdateFunc (OPipeline newPipeline) (OPipeline foundPipeline)
        = Some (newRes,
                OPipeline
                  {| pipeline.ObjectMeta := pipeline.ObjectMeta foundPipeline;
                     pipeline.Spec :=
                       {| pipeline.Description :=
                            pipeline.Description (pipeline.Spec newPipeline);
                          pipeline.Tasks := pipeline.Tasks (pipeline.Spec newPipeline);
                          pipeline.Params :=
                            map virtioParam
                                (pipeline.Params (pipeline.Spec newPipeline));
                          pipeline.Workspaces :=
                            pipeline.Workspaces (pipeline.Spec newPipeline);
                          pipeline.Results :=
                            pipeline.Results (pipeline.Spec newPipeline);
                          pipeline.Finally :=
                            pipeline.Finally (pipeline.Spec newPipeline) |} |}))
  /\ (forall param : pipeline.ParamSpec,
         virtioParam param
         = if String.prefix "virtioContainer" (pipeline.Name param)
           then {| pipeline.Name := pipeline.Name param;
                   pipeline.ParamType_ := pipeline.ParamType_ param;
                   pipeline.ParamDescription := pipeline.ParamDescription param;
                   pipeline.Default :=
                     Some {| pipeline.Type_ := pipeline.ParamTypeString;
                             pipeline.StringVal := GetVirtioImage;
                             pipeline.ArrayVal := [];
                             pipeline.ObjectVal := ∅ |} |}
           else param)
  /\ (forall static : string,
         pipeline.Default (virtioParam (fake.param "virtioContainerImage" static))
         = Some {| pipeline.Type_ := pipeline.ParamTypeString;
                   pipeline.StringVal := GetVirtioImage;
                   pipeline.ArrayVal := [];
                   pipeline.ObjectVal := ∅ |}).
Proof.
  split; [| split; reflexivity].
  intros newPipeline foundPipeline. unfold pipelineUpdateFunc.
  eexists. cbn [pipeline.SetSpec pipeline.Spec pipeline.ObjectMeta].
  rewrite (foldl_alter_when_seq
             (fun param => strings.HasPrefix (pipeline.Name param) "virtioContainer")).
  reflexivity.
Qed.
End UpdateFunc.

(** ** The namespace pattern *)

Section NamespacePattern.

Lemma prefix_append (p1 p2 s : string) :
  String.prefix (p1 ++ p2)%string s
  = match regexp.stripPrefix p1 s with
    | Some rest => String.prefix p2 rest
    | None => false
    end.
Proof.
  revert s. induction p1 as [| a p1 IH]; intros s; simpl.
  - reflexivity.
  - destruct s as [| b s]; [reflexivity |].
    change (String.prefix (String a p1 ++ p2)%string (String b s))
      with (if ascii_dec a b then String.prefix (p1 ++ p2)%string s else false).
    cbn [regexp.stripPrefix].
    destruct (ascii_dec a b) as [-> | Hne].
    + rewrite Ascii.eqb_refl. apply IH.
    + destruct (Ascii.eqb_spec a b) as [Heq | _]; [contradiction | reflexivity].
Qed.

Lemma matchesHere_Literal (p s : string) (atStart : bool) :
  regexp.matchesHere (regexp.Literal p) atStart s = String.prefix p s.
Proof.
  unfold regexp.matchesHere. cbn [regexp.matchHere].
  transitivity (String.prefix (p ++ "")%string s).
  - rewrite prefix_append. destruct (regexp.stripPrefix p s) as [[| b rest] |]; reflexivity.
  - f_equal. induction p as [| a p IH]; [reflexivity |].
    change (String a p ++ "")%string with (String a (p ++ "")%string).
    rewrite IH. reflexivity.
Qed.

Lemma search_namespaceRegex_inside (s : string) :
  regexp.search namespaceRegex false s = false.
Proof.
  induction s as [| a s IH]; [reflexivity |].
  cbn [regexp.search]. rewrite IH. reflexivity.
Qed.

Lemma matchesHere_namespaceRegex (s : string) :
  regexp.matchesHere namespaceRegex true s
  = String.prefix "openshift-" s || String.prefix "kube-" s.
Proof.
  change "openshift-" with ("openshift" ++ "-")%string.
  change "kube-" with ("kube" ++ "-")%string.
  rewrite !prefix_append.
  unfold regexp.matchesHere, namespaceRegex. cbn [regexp.matchHere map concat fst snd].
  rewrite app_nil_r.
  destruct (regexp.stripPrefix "openshift" s) as [r1 |];
    destruct (regexp.stripPrefix "kube" s) as [r2 |];
    cbn [app map concat fst snd regexp.matchHere];
    rewrite <- ?(matchesHere_Literal "-" _ false); unfold regexp.matchesHere;
    cbn [regexp.matchHere];
    repeat match goal with
           | |- context [regexp.stripPrefix "-" ?r] =>
               destruct (regexp.stripPrefix "-" r)
           end; reflexivity.
Qed.

(** The pattern [^(openshift|kube)-] matches the names that start with
    [openshift-] or with [kube-]. *)
Lemma MatchString_namespaceRegex (s : string) :
  regexp.MatchString namespaceRegex s
  = strings.HasPrefix s "openshift-" || strings.HasPrefix s "kube-".
Proof.
  unfold regexp.MatchString, strings.HasPrefix.
  rewrite <- matchesHere_namespaceRegex.
  destruct s as [| a s]; cbn [regexp.search].
  - rewrite orb_false_r. reflexivity.
  - rewrite search_namespaceRegex_inside, orb_false_r. reflexivity.
Qed.
End NamespacePattern.

(** ** The factories *)

Section Factories.

Lemma foldl_append {I B} (ctor : I -> B) (indices : list I) (acc : list B) :
  foldl (fun funcs i => funcs ++ [ctor i]) acc indices = acc ++ map ctor indices.
Proof.
  revert acc. induction indices as [| i indices IH]; intros acc; simpl.
  - rewrite app_nil_r. reflexivity.
  - rewrite IH, <- app_assoc. reflexivity.
Qed.

Lemma foldl_append_when {B} (keep : nat -> bool) (ctor : nat -> B)
  (indices : list nat) (acc : list B) :
  foldl (fun funcs i => if keep i then funcs ++ [ctor i] else funcs) acc indices
  = acc ++ map ctor (filter (fun i => keep i = true) indices).
Proof.
  revert acc. induction indices as [| i indices IH]; intros acc; simpl.
  - rewrite app_nil_r. reflexivity.
  - rewrite IH. destruct (keep i) eqn:Hk.
    + rewrite filter_cons_True by exact Hk. simpl.
      rewrite <- app_assoc. reflexivity.
    + rewrite filter_cons_False by (rewrite Hk; discriminate). reflexivity.
Qed.

Lemma filter_ext_elem {B} (P Q : B -> Prop)
  `{!forall x, Decision (P x), !forall x, Decision (Q x)} (l : list B) :
  (forall x, x ∈ l -> (P x <-> Q x)) -> filter P l = filter Q l.
Proof.
  induction l as [| x l IH]; intros Hiff; [reflexivity |].
  rewrite !filter_cons.
  rewrite IH by (intros y Hy; apply Hiff; right; exact Hy).
  assert (Hx : P x <-> Q x) by (apply Hiff; left).
  destruct (decide (P x)) as [HP | HP], (decide (Q x)) as [HQ | HQ];
    try reflexivity; exfalso; tauto.
Qed.

Lemma reconcileTektonPipelinesFuncs_seq (l : list pipeline.Pipeline) :
  reconcileTektonPipelinesFuncs l = map pipelineFunc (seq 0 (length l)).
Proof. apply (foldl_append pipelineFunc). Qed.

Lemma reconcileConfigMapsFuncs_seq (l : list v1.ConfigMap) :
  reconcileConfigMapsFuncs l = map configMapFunc (seq 0 (length l)).
Proof. apply (foldl_append configMapFunc). Qed.

Lemma reconcileClusterRolesFuncs_seq (l : list rbac.ClusterRole) :
  reconcileClusterRolesFuncs l = map clusterRoleFunc (seq 0 (length l)).
Proof. apply (foldl_append clusterRoleFunc). Qed.

Lemma reconcileRoleBindingsFuncs_seq (l : list rbac.RoleBinding) :
  reconcileRoleBindingsFuncs l = map roleBindingFunc (seq 0 (length l)).
Proof. apply (foldl_append roleBindingFunc). Qed.

(** The test the service-account factory makes is [skipped]. *)
Lemma skip_test (r : Request) (sa : v1.ServiceAccount) :
  match TektonPipelines_ (Spec (Instance r)) with
  | Some tp =>
      negb (String.eqb (Namespace tp) "") &&
      (negb (regexp.MatchString namespaceRegex (Namespace tp)) &&
       String.eqb (metav1.Name (v1.ServiceAccountMeta sa)) "pipeline")
  | None => false
  end
  = skipped r sa.
Proof.
  unfold skipped, namespaceOverride.
  destruct (TektonPipelines_ (Spec (Instance r))) as [tp |]; [| reflexivity].
  destruct (String.eqb (Namespace tp) ""); cbn [negb andb]; [reflexivity |].
  rewrite MatchString_namespaceRegex. reflexivity.
Qed.


Lemma reconcileServiceAccountsFuncs_kept (r : Request) (sas : list v1.ServiceAccount) :
  reconcileServiceAccountsFuncs r sas
  = map serviceAccountFunc
        (filter (fun i => keptIndex r sas i = true) (seq 0 (length sas))).
Proof.
  unfold reconcileServiceAccountsFuncs.
  rewrite <- (app_nil_l (map _ _)), <- foldl_append_when.
  apply foldl_step_ext. intros funcs i. unfold keptIndex.
  destruct (sas !! i) as [sa |]; [| reflexivity].
  rewrite skip_test. destruct (skipped r sa); reflexivity.
Qed.

Lemma reconcileServiceAccountsFuncs_elem (r : Request)
  (sas : list v1.ServiceAccount) (i : nat) :
  serviceAccountFunc i ∈ reconcileServiceAccountsFuncs r sas
  <-> exists sa : v1.ServiceAccount, sas !! i = Some sa /\ skipped r sa = false.
Proof.
  rewrite reconcileServiceAccountsFuncs_kept.
  change (map serviceAccountFunc ?l) with (serviceAccountFunc <$> l).
  rewrite list_elem_of_fmap. split.
  - intros (j & Hj & Hin). injection Hj as <-.
    apply list_elem_of_filter in Hin as [Hkept _]. unfold keptIndex in Hkept.
    destruct (sas !! i) as [sa |]; [| discriminate].
    exists sa. split; [reflexivity |]. apply negb_true_iff. exact Hkept.
  - intros (sa & Hsa & Hnot). exists i. split; [reflexivity |].
    apply list_elem_of_filter. split.
    + unfold keptIndex. rewrite Hsa, Hnot. reflexivity.
    + apply elem_of_seq. apply lookup_lt_Some in Hsa. lia.
Qed.

Lemma reconcileServiceAccountsFuncs_length (r : Request)
  (sas : list v1.ServiceAccount) :
  length (reconcileServiceAccountsFuncs r sas)
  = length (filter (fun sa => skipped r sa = false) sas).
Proof.
  rewrite reconcileServiceAccountsFuncs_kept, length_map. unfold keptIndex.
  induction sas as [| sa sas IH] using rev_ind; [reflexivity |].
  rewrite length_app, Nat.add_comm. cbn [length Nat.add].
  rewrite seq_S, !filter_app, !length_app. cbn [Nat.add].
  f_equal.
  - rewrite <- IH. f_equal. apply filter_ext_elem.
    intros i Hi. apply elem_of_seq in Hi.
    rewrite lookup_app_l by lia. reflexivity.
  - rewrite (filter_cons _ (length sas)), (filter_cons _ sa), !filter_nil.
    rewrite list_lookup_middle by reflexivity.
    destruct (skipped r sa); repeat case_decide; try reflexivity; exfalso; auto.
    all: try discriminate.
Qed.
End Factories.

(** ** Cleanup *)

Section CleanupProperties.
Context {Env : Environment}.

Lemma DeleteAll_all (request : Request) (objects : list Object) (w : World) :
  exists (results : list CleanupResult) (w' : World),
    DeleteAll request objects w = (Done results, w')
    /\ map CleanupResource results = objects
    /\ calls w' = calls w ++ map CallDelete objects
    /\ operand w' = operand w
    /\ logs w' = logs w.
Proof.
  revert w. induction objects as [| o objects IH]; intros w.
  - exists [], w. cbn. rewrite app_nil_r. auto.
  - cbn [DeleteAll]. unfold bind at 1.
    destruct (deleteObject request o (cluster w)) as [c out] eqn:Hdel.
    match goal with
    | |- context [DeleteAll request objects] =>
        unfold bind at 1
    end.
    match goal with
    | |- context [DeleteAll request objects ?w1] =>
        destruct (IH w1) as (results & w' & Hrun & Hres & Hcalls & Hop & Hlogs)
    end.
    rewrite Hrun. unfold ret.
    eexists _, w'. split; [reflexivity |].
    cbn [map CleanupResource]. rewrite Hres, Hcalls, Hop, Hlogs. cbn.
    rewrite <- app_assoc. auto.
Qed.

Lemma Cleanup_objects (request : Request) (w : World) :
  Cleanup request w = DeleteAll request (allObjects (operand w)) w.
Proof.
  unfold Cleanup, allObjects.
  rewrite !foldl_append. cbn [toObject DeepCopy Pipeline_ClientObject
    ConfigMap_ClientObject RoleBinding_ClientObject ServiceAccount_ClientObject
    ClusterRole_ClientObject app].
  rewrite <- !app_assoc.
  repeat (f_equal; try (apply map_ext; reflexivity)).
Qed.

(** C9: [Cleanup] copies every object of the five slices and requests the
    deletion of each copy, in the order pipelines, config maps, role
    bindings, service accounts, cluster roles.  It returns one result for
    each object of the bundle, the service accounts that a pass leaves
    out included, and the operand's own objects are as before whatever the
    deletion does with the copies.  On the sample bundle under the
    override [myapp], the service account [pipeline], which that pass
    skips, is among the objects deleted. *)
Theorem Cleanup_deletes_all :
  (forall (request : Request) (w : World),
      exists (results : list CleanupResult) (w' : World),
        Cleanup request w = DeleteAll request (allObjects (operand w)) w
        /\ Cleanup request w = (Done results, w')
        /\ map CleanupResource results = allObjects (operand w)
        /\ length results
           = length (pipelines (operand w)) + length (configMaps (operand w))
             + length (roleBindings (operand w))
             + length (serviceAccounts (operand w))
             + length (clusterRoles (operand w))
        /\ calls w' = calls w ++ map CallDelete (allObjects (operand w))
        /\ operand w' = operand w)
  /\ map (fun r => GetName (CleanupResource r))
         match fst (@Cleanup (fake.env "1.3.0")
                             (fake.request true true (Some "myapp") "1.3.0")
                             (fake.world "1.3.0" [])) with
         | Done results => results
         | _ => []
         end
     = ["windows-efi-installer"; "windows-efi-autounattend";
        "windows-efi-installer-binding"; "pipeline"; "windows-efi-installer";
        "windows-efi-installer-role"].
Proof.
  split; [| vm_compute; reflexivity].
  intros request w. rewrite Cleanup_objects.
  destruct (DeleteAll_all request (allObjects (operand w)) w)
    as (results & w' & Hrun & Hres & Hcalls & Hop & _).
  exists results, w'. split; [reflexivity |]. repeat split; try assumption.
  rewrite <- (length_map CleanupResource), Hres. unfold allObjects.
  rewrite !length_app, !length_map. lia.
Qed.
End CleanupProperties.

(** ** One call of a reconcile function *)

Section OneCall.
Context {Env : Environment}.

Lemma builder_Reconcile_effect {A} `{ClientObject A} (b : reconcileBuilder A)
  (w : World) :
  exists (resource : A) (result : outcome ReconcileResult) (w' : World),
    builder_Reconcile b w = (resource, result, w')
    /\ resource = fst (fst (builderReconcile A _ b (cluster w)))
    /\ operand w' = operand w
    /\ logs w' = logs w
    /\ calls w' = calls w ++ [CallCreateOrUpdate (toObject (builderResource b))].
Proof.
  unfold builder_Reconcile.
  destruct (builderReconcile A _ b (cluster w)) as [[resource c] result].
  eexists _, _, _. split; [reflexivity |]. cbn. auto.
Qed.

Lemma override_pipeline (request : Request) (p : pipeline.Pipeline) :
  match TektonPipelines_ (Spec (Instance request)) with
  | Some tp =>
      if negb (String.eqb (Namespace tp) "")
      then pipeline.SetMeta
             (metav1.SetNamespace (Namespace tp) (pipeline.ObjectMeta p)) p
      else p
  | None => p
  end
  = overridePipeline request p.
Proof.
  unfold overridePipeline, namespaceOverride.
  destruct (TektonPipelines_ (Spec (Instance request))) as [tp |]; [| reflexivity].
  destruct (String.eqb (Namespace tp) ""); reflexivity.
Qed.

Lemma override_configMap (request : Request) (cm : v1.ConfigMap) :
  match TektonPipelines_ (Spec (Instance request)) with
  | Some tp =>
      if negb (String.eqb (Namespace tp) "")
      then v1.SetConfigMapMeta
             (metav1.SetNamespace (Namespace tp) (v1.ConfigMapMeta cm)) cm
      else cm
  | None => cm
  end
  = overrideConfigMap request cm.
Proof.
  unfold overrideConfigMap, namespaceOverride.
  destruct (TektonPipelines_ (Spec (Instance request))) as [tp |]; [| reflexivity].
  destruct (String.eqb (Namespace tp) ""); reflexivity.
Qed.

Lemma default_serviceAccount (request : Request) (sa : v1.ServiceAccount) :
  (if String.eqb (metav1.Namespace (v1.ServiceAccountMeta sa)) ""
   then v1.SetServiceAccountMeta
          (metav1.SetNamespace (InstanceNamespace (Instance request))
                               (v1.ServiceAccountMeta sa)) sa
   else sa)
  = defaultServiceAccount request sa.
Proof.
  unfold defaultServiceAccount, defaultNamespace.
  destruct (String.eqb (metav1.Namespace (v1.ServiceAccountMeta sa)) "");
    [reflexivity | destruct sa; reflexivity].
Qed.

Lemma subjects_loop (h : rbac.Subject -> rbac.Subject) (indices : list nat)
  (rb : rbac.RoleBinding) :
  foldl (fun rb j => rbac.SetSubjects (alter h j (rbac.Subjects rb)) rb) rb indices
  = rbac.SetSubjects
      (foldl (fun subjects j => alter h j subjects) (rbac.Subjects rb) indices) rb.
Proof.
  revert rb. induction indices as [| j indices IH]; intros rb; simpl.
  - destruct rb; reflexivity.
  - rewrite IH. reflexivity.
Qed.

Lemma patch_roleBinding (request : Request) (rb : rbac.RoleBinding) :
  (let namespace := InstanceNamespace (Instance request) in
   let rb :=
     if String.eqb (metav1.Namespace (rbac.RoleBindingMeta rb)) ""
     then rbac.SetRoleBindingMeta
            (metav1.SetNamespace namespace (rbac.RoleBindingMeta rb)) rb
     else rb in
   foldl (fun rb j =>
            rbac.SetSubjects
              (alter (rbac.SetSubjectNamespace namespace) j (rbac.Subjects rb)) rb)
         rb (seq 0 (length (rbac.Subjects rb))))
  = patchRoleBinding request rb.
Proof.
  cbv zeta. rewrite subjects_loop, foldl_alter_seq.
  unfold patchRoleBinding, defaultNamespace.
  destruct (String.eqb (metav1.Namespace (rbac.RoleBindingMeta rb)) "");
    reflexivity.
Qed.

(** The step every closure ends with: the builder's [Reconcile()] on the
    element, and the write of what it left into the slice. *)
Ltac submitted w :=
  match goal with
  | |- context [builder_Reconcile ?b w] =>
      let x := fresh "x" in
      let out := fresh "out" in
      let w1 := fresh "w" in
      let Hx := fresh "Hx" in
      let Hop := fresh "Hop" in
      let Hlogs := fresh "Hlogs" in
      let Hcalls := fresh "Hcalls" in
      destruct (builder_Reconcile_effect b w)
        as (x & out & w1 & -> & Hx & Hop & Hlogs & Hcalls);
      eexists _, _; split; [reflexivity |]; cbn; rewrite Hop;
      repeat split; try assumption; eexists; reflexivity
  end.

(** A call either finds no element behind its pointer and panics, or
    submits the element with its overrides and leaves every other element
    of the operand alone. *)
Lemma call_effect (f : ReconcileFunc) (request : Request) (w : World) :
  match submission request (operand w) f with
  | None => call f request w = (Panic, w)
  | Some o =>
      exists (out : outcome ReconcileResult) (w' : World),
        call f request w = (out, w')
        /\ calls w' = calls w ++ [CallCreateOrUpdate o]
        /\ logs w' = logs w
        /\ sameExcept f (operand w) (operand w')
  end.
Proof.
  destruct f as [i | i | i | i | i]; cbn [submission call].
  - unfold reconcilePipeline.
    destruct (pipelines (operand w) !! i) as [p |]; [| reflexivity].
    cbn [fmap option_fmap option_map]. rewrite override_pipeline. submitted w.
  - unfold reconcileConfigMap.
    destruct (configMaps (operand w) !! i) as [cm |]; [| reflexivity].
    cbn [fmap option_fmap option_map]. rewrite override_configMap. submitted w.
  - unfold reconcileServiceAccount.
    destruct (serviceAccounts (operand w) !! i) as [sa |]; [| reflexivity].
    cbn [fmap option_fmap option_map]. cbv zeta. rewrite default_serviceAccount.
    submitted w.
  - unfold reconcileClusterRole.
    destruct (clusterRoles (operand w) !! i) as [cr |]; [| reflexivity].
    cbn [fmap option_fmap option_map]. submitted w.
  - unfold reconcileRoleBinding.
    destruct (roleBindings (operand w) !! i) as [rb |]; [| reflexivity].
    cbn [fmap option_fmap option_map].
    pose proof (patch_roleBinding request rb) as Hrb. cbv zeta in Hrb.
    cbv zeta. rewrite Hrb. submitted w.
Qed.
End OneCall.

(** ** A whole pass *)

Section Pass.
Context {Env : Environment}.

Lemma submission_frame (request : Request) (f g : ReconcileFunc)
  (t t' : tektonPipelines) :
  sameExcept f t t' -> f <> g -> submission request t' g = submission request t g.
Proof.
  intros Hsame Hne.
  destruct f as [i | i | i | i | i], g as [j | j | j | j | j];
    cbn [sameExcept] in Hsame; destruct Hsame as [x ->];
    cbn [submission pipelines configMaps roleBindings serviceAccounts clusterRoles
         setPipelines setConfigMaps setRoleBindings setServiceAccounts
         setClusterRoles];
    try reflexivity;
    rewrite list_lookup_insert_ne by congruence; reflexivity.
Qed.

(** The calls of a pass are the submissions of its functions, in order, up
    to the first one that does not return a result. *)
Lemma CollectResourceStatus_calls (request : Request) (t0 : tektonPipelines)
  (funcs : list ReconcileFunc) (objs : list Object) :
  NoDup funcs ->
  Forall2 (fun f o => submission request t0 f = Some o) funcs objs ->
  forall w : World,
    (forall g, g ∈ funcs ->
               submission request (operand w) g = submission request t0 g) ->
    exists (out : outcome (list ReconcileResult)) (w' : World) (m : nat),
      CollectResourceStatus request funcs w = (out, w')
      /\ logs w' = logs w
      /\ calls w' = calls w ++ map CallCreateOrUpdate (take m objs)
      /\ forall results, out = Done results ->
           take m objs = objs /\ length results = length objs.
Proof.
  intros Hnodup Hsub. induction Hsub as [| f o funcs objs Hf Hrest IH]; intros w Hagree.
  - exists (Done []), w, 0. cbn. rewrite app_nil_r.
    repeat split; try reflexivity; injection H as <-; reflexivity.
  - apply NoDup_cons in Hnodup as [Hnotin Hnodup].
    pose proof (call_effect f request w) as Hcall.
    rewrite (Hagree f) in Hcall by left. rewrite Hf in Hcall.
    destruct Hcall as (out1 & w1 & Hcall & Hcalls1 & Hlogs1 & Hsame).
    cbn [CollectResourceStatus]. unfold bind at 1. rewrite Hcall.
    destruct out1 as [status | e |].
    + destruct (IH Hnodup w1) as (out2 & w2 & m & Hrun & Hlogs2 & Hcalls2 & Hdone).
      { intros g Hg. rewrite <- (Hagree g) by (right; exact Hg).
        apply (submission_frame request f g); [exact Hsame |].
        intros ->. contradiction. }
      unfold bind. rewrite Hrun.
      destruct out2 as [res | e |]; unfold ret.
      * exists (Done (status :: res)), w2, (S m).
        split; [reflexivity |]. split; [congruence |].
        split; [rewrite Hcalls2, Hcalls1, <- app_assoc; reflexivity |].
        intros results Hres. injection Hres as <-.
        destruct (Hdone res eq_refl) as [Hall Hlen].
        cbn [take length]. rewrite Hall.
        split; [reflexivity | congruence].
      * exists (Fail e), w2, (S m).
        split; [reflexivity |]. split; [congruence |].
        split; [rewrite Hcalls2, Hcalls1, <- app_assoc; reflexivity |].
        intros results Hres. discriminate.
      * exists Panic, w2, (S m).
        split; [reflexivity |]. split; [congruence |].
        split; [rewrite Hcalls2, Hcalls1, <- app_assoc; reflexivity |].
        intros results Hres. discriminate.
    + exists (Fail e), w1, 1.
      split; [reflexivity |]. split; [assumption |].
      rewrite Hcalls1. cbn [take map]. rewrite take_0.
      split; [reflexivity | discriminate].
    + exists Panic, w1, 1.
      split; [reflexivity |]. split; [assumption |].
      rewrite Hcalls1. cbn [take map]. rewrite take_0.
      split; [reflexivity | discriminate].
Qed.

(** The functions of a pass point to different elements. *)
Lemma passFuncs_NoDup (request : Request) (t : tektonPipelines) :
  NoDup (passFuncs request t).
Proof.
  unfold passFuncs.
  rewrite reconcileClusterRolesFuncs_seq, reconcileTektonPipelinesFuncs_seq,
    reconcileConfigMapsFuncs_seq, reconcileRoleBindingsFuncs_seq,
    reconcileServiceAccountsFuncs_kept.
  change (@map nat ReconcileFunc) with (@fmap list _ nat ReconcileFunc).
  repeat (apply NoDup_app; split; [| split]);
    try (apply NoDup_fmap_2; [intros i j Hij; congruence |]);
    try apply NoDup_filter; try apply NoDup_seq.
  all: intros f Hf Hf'; apply list_elem_of_fmap in Hf as (i & -> & _);
    repeat (apply elem_of_app in Hf' as [Hf' | Hf']);
    apply list_elem_of_fmap in Hf' as (j & Hj & _); discriminate.
Qed.

Lemma Forall2_lookups {A B} (g : A -> B) (todo before : list A) :
  Forall2 (fun i b => g <$> (before ++ todo) !! i = Some b)
          (seq (length before) (length todo)) (map g todo).
Proof.
  revert before. induction todo as [| x todo IH]; intros before; cbn [length seq map].
  - constructor.
  - constructor.
    + rewrite list_lookup_middle by reflexivity. reflexivity.
    + replace (before ++ x :: todo) with ((before ++ [x]) ++ todo)
        by (rewrite <- app_assoc; reflexivity).
      replace (S (length before)) with (length (before ++ [x]))
        by (rewrite length_app; cbn; lia).
      apply IH.
Qed.

Lemma Forall2_lookups_kept {A B} (c : A -> bool) (g : A -> B)
  (todo before : list A) :
  Forall2 (fun i b => g <$> (before ++ todo) !! i = Some b)
          (filter (fun i => match (before ++ todo) !! i with
                            | Some x => c x
                            | None => false
                            end = true)
                  (seq (length before) (length todo)))
          (map g (filter (fun x => c x = true) todo)).
Proof.
  revert before. induction todo as [| x todo IH]; intros before; cbn [length seq].
  - constructor.
  - rewrite !filter_cons.
    rewrite (list_lookup_middle before todo x (length before) eq_refl).
    replace (before ++ x :: todo) with ((before ++ [x]) ++ todo)
      by (rewrite <- app_assoc; reflexivity).
    replace (S (length before)) with (length (before ++ [x]))
      by (rewrite length_app; cbn; lia).
    destruct (decide (c x = true)) as [Hc | Hc].
    + cbn [map]. constructor; [| apply IH].
      rewrite <- app_assoc. cbn [app].
      rewrite (list_lookup_middle before todo x (length before) eq_refl).
      reflexivity.
    + apply IH.
Qed.

Lemma passFuncs_submissions (request : Request) (t : tektonPipelines) :
  Forall2 (fun f o => submission request t f = Some o)
          (passFuncs request t) (submissions request t).
Proof.
  unfold passFuncs, submissions.
  rewrite reconcileClusterRolesFuncs_seq, reconcileTektonPipelinesFuncs_seq,
    reconcileConfigMapsFuncs_seq, reconcileRoleBindingsFuncs_seq,
    reconcileServiceAccountsFuncs_kept.
  change (@map nat ReconcileFunc) with (@fmap list _ nat ReconcileFunc).
  repeat apply Forall2_app; apply Forall2_fmap_l; cbn [submission compose].
  - apply (Forall2_lookups OClusterRole (clusterRoles t) []).
  - apply (Forall2_lookups (fun p => OPipeline (overridePipeline request p))
             (pipelines t) []).
  - apply (Forall2_lookups (fun cm => OConfigMap (overrideConfigMap request cm))
             (configMaps t) []).
  - apply (Forall2_lookups (fun rb => ORoleBinding (patchRoleBinding request rb))
             (roleBindings t) []).
  - rewrite (list_filter_iff (fun sa => skipped request sa = false)
               (fun sa => negb (skipped request sa) = true))
      by (intros sa; destruct (skipped request sa); cbn; split; congruence).
    apply (Forall2_lookups_kept (fun sa => negb (skipped request sa))
             (fun sa => OServiceAccount (defaultServiceAccount request sa))
             (serviceAccounts t) []).
Qed.

(** The lines logged after the engine has returned. *)
Lemma revert_lines (request : Request) (results : list ReconcileResult) (w : World) :
  foldl (fun w r =>
           if negb (isUpgradingNow request) &&
              OperationResult_eqb (OperationResult_ r) OperationResultUpdated
           then Info 0 ("Changes reverted in tekton pipeline: "
                        ++ GetName (Resource r))%string w
           else w)
        w results
  = {| operand := operand w; cluster := cluster w; calls := calls w;
       logs := logs w ++ revertLines request results |}.
Proof.
  unfold revertLines. revert w.
  induction results as [| r results IH]; intros w; cbn [foldl].
  - destruct (isUpgradingNow request); cbn; rewrite app_nil_r; destruct w; reflexivity.
  - rewrite IH. destruct (isUpgradingNow request); cbn [negb andb].
    + reflexivity.
    + rewrite filter_cons.
      destruct (OperationResult_eqb (OperationResult_ r) OperationResultUpdated);
        cbn; [rewrite <- app_assoc |]; reflexivity.
Qed.

(** [Reconcile] stopped by the missing CRD. *)
Lemma Reconcile_crd_missing_eq (request : Request) (w : World) :
  deployTektonTaskResources request = Some true ->
  CrdExists request tektonCrd = false ->
  Reconcile request w = (Fail "Tekton CRD tasks.tekton.dev does not exist", w).
Proof.
  intros Hgate Hcrd. destruct (featureGates_of request true Hgate) as (fg & Hfg & Hon).
  unfold Reconcile. rewrite Hfg, Hon, Hcrd. reflexivity.
Qed.

(** [Reconcile] with the feature gate on and the CRD present. *)
Lemma Reconcile_open (request : Request) (w : World) :
  deployTektonTaskResources request = Some true ->
  CrdExists request tektonCrd = true ->
  Reconcile request w
  = match CollectResourceStatus request (passFuncs request (operand w)) w with
    | (Done results, w') =>
        (Done results,
         {| operand := operand w'; cluster := cluster w'; calls := calls w';
            logs := logs w' ++ revertLines request results |})
    | (Fail err, w') => (Fail err, w')
    | (Panic, w') => (Panic, w')
    end.
Proof.
  intros Hgate Hcrd. destruct (featureGates_of request true Hgate) as (fg & Hfg & Hon).
  unfold Reconcile. rewrite Hfg, Hon, Hcrd. cbn [negb].
  cbv zeta. rewrite app_nil_l, <- !app_assoc. fold (passFuncs request (operand w)).
  destruct (CollectResourceStatus request (passFuncs request (operand w)) w)
    as [[results | err |] w']; try reflexivity.
  rewrite revert_lines. reflexivity.
Qed.

(** The calls of [Reconcile]: the submissions of the pass up to the point
    it stopped at, all of them when it returns results with the feature
    gate on. *)
Lemma Reconcile_calls (request : Request) (w : World) :
  exists (out : outcome (list ReconcileResult)) (w' : World) (m : nat),
    Reconcile request w = (out, w')
    /\ calls w' = calls w
                  ++ map CallCreateOrUpdate
                         (take m (submissions request (operand w)))
    /\ forall results,
         out = Done results ->
         deployTektonTaskResources request = Some true ->
         take m (submissions request (operand w)) = submissions request (operand w)
         /\ length results = length (submissions request (operand w)).
Proof.
  destruct (deployTektonTaskResources request) as [[|] |] eqn:Hgate.
  - destruct (CrdExists request tektonCrd) eqn:Hcrd.
    + rewrite (Reconcile_open request w Hgate Hcrd).
      destruct (CollectResourceStatus_calls request (operand w)
                  (passFuncs request (operand w))
                  (submissions request (operand w))
                  (passFuncs_NoDup request (operand w))
                  (passFuncs_submissions request (operand w)) w
                  (fun g _ => eq_refl))
        as (out & w' & m & Hrun & _ & Hcalls & Hdone).
      rewrite Hrun. destruct out as [results | err |].
      * eexists _, _, m. split; [reflexivity |]. cbn [calls].
        split; [exact Hcalls |].
        intros results' Hres _. injection Hres as <-. apply Hdone. reflexivity.
      * eexists _, _, m. split; [reflexivity |].
        split; [exact Hcalls | discriminate].
      * eexists _, _, m. split; [reflexivity |].
        split; [exact Hcalls | discriminate].
    + rewrite (Reconcile_crd_missing_eq request w Hgate Hcrd).
      eexists _, _, 0. split; [reflexivity |]. rewrite take_0. cbn.
      rewrite app_nil_r. split; [reflexivity | discriminate].
  - rewrite (Reconcile_gate_off_eq request w Hgate).
    eexists _, _, 0. split; [reflexivity |]. rewrite take_0. cbn.
    rewrite app_nil_r. split; [reflexivity | discriminate].
  - rewrite (Reconcile_nil_featureGates request w (featureGates_nil request Hgate)).
    eexists _, _, 0. split; [reflexivity |]. rewrite take_0. cbn.
    rewrite app_nil_r. split; [reflexivity | discriminate].
Qed.
End Pass.

(** ** What a pass submits and what it logs *)

Section PassProperties.
Context {Env : Environment}.

Lemma elem_of_submissions (request : Request) (t : tektonPipelines) (o : Object) :
  o ∈ submissions request t
  <-> (exists cr, o = OClusterRole cr /\ cr ∈ clusterRoles t)
      \/ (exists p, o = OPipeline (overridePipeline request p) /\ p ∈ pipelines t)
      \/ (exists cm, o = OConfigMap (overrideConfigMap request cm)
                     /\ cm ∈ configMaps t)
      \/ (exists rb, o = ORoleBinding (patchRoleBinding request rb)
                     /\ rb ∈ roleBindings t)
      \/ (exists sa, o = OServiceAccount (defaultServiceAccount request sa)
                     /\ skipped request sa = false /\ sa ∈ serviceAccounts t).
Proof.
  unfold submissions.
  change (@map) with (fun A B => @fmap list _ A B). cbv beta.
  rewrite !elem_of_app, !list_elem_of_fmap.
  setoid_rewrite list_elem_of_filter. tauto.
Qed.

Lemma namespaceOverride_set (request : Request) (tp : TektonPipelines) :
  TektonPipelines_ (Spec (Instance request)) = Some tp ->
  String.eqb (Namespace tp) "" = false ->
  namespaceOverride request = Some (Namespace tp).
Proof. intros Htp Hns. unfold namespaceOverride. rewrite Htp, Hns. reflexivity. Qed.

(** C7: when the engine has returned results, [Reconcile] returns exactly
    those results and no error.  Beyond what the engine did, it only adds
    lines to the log: none while the operator is upgrading, and otherwise
    one line for each result that is an update, in order, with the name of
    the resource. *)
Theorem Reconcile_reports_reverts (request : Request) (w w1 : World)
  (results : list ReconcileResult) :
  deployTektonTaskResources request = Some true ->
  CrdExists request tektonCrd = true ->
  CollectResourceStatus request (passFuncs request (operand w)) w = (Done results, w1) ->
  exists w' : World,
    Reconcile request w = (Done results, w')
    /\ operand w' = operand w1
    /\ cluster w' = cluster w1
    /\ calls w' = calls w1
    /\ logs w'
       = logs w1
         ++ (if isUpgradingNow request then []
             else map (fun r =>
                         {| V := 0;
                            Msg := ("Changes reverted in tekton pipeline: "
                                    ++ GetName (Resource r))%string |})
                      (filter (fun r => OperationResult_eqb (OperationResult_ r)
                                          OperationResultUpdated = true)
                              results)).
Proof.
  intros Hgate Hcrd Hrun.
  rewrite (Reconcile_open request w Hgate Hcrd), Hrun.
  eexists. split; [reflexivity |]. cbn. repeat split.
Qed.

End PassProperties.

Section ServiceAccounts.
Context {Env : Environment}.

End ServiceAccounts.

Lemma Reconcile_reports_reverts_witness :
  exists w',
    @Reconcile (fake.env "1.3.0") fake.revertRequest (fake.world "1.3.0" [fake.edited])
    = (Done fake.revertResults, w')
    /\ operand w' = operand fake.revertWorld
    /\ cluster w' = cluster fake.revertWorld
    /\ calls w' = calls fake.revertWorld
    /\ logs w'
       = logs fake.revertWorld
         ++ (if @isUpgradingNow (fake.env "1.3.0") fake.revertRequest then []
             else map (fun r =>
                         {| V := 0;
                            Msg := ("Changes reverted in tekton pipeline: "
                                    ++ GetName (Resource r))%string |})
                      (filter (fun r => OperationResult_eqb (OperationResult_ r)
                                          OperationResultUpdated = true)
                              fake.revertResults)).
Proof.
  apply (@Reconcile_reports_reverts (fake.env "1.3.0") fake.revertRequest
           (fake.world "1.3.0" [fake.edited]) fake.revertWorld fake.revertResults).
  - reflexivity.
  - reflexivity.
  - vm_compute. reflexivity.
Defined.


(** ** What a pass writes into the operand *)

Section Writes.
Context {Env : Environment}.

Lemma insert_alter_lookup {A} (h : A -> A) (l : list A) (i : nat) (x : A) :
  l !! i = Some x -> <[i:=h x]> l = alter h i l.
Proof.
  intros Hi. rewrite list_insert_alter. apply list_alter_ext; [| reflexivity].
  intros y Hy. congruence.
Qed.

Lemma alter_lookup_None {A} (h : A -> A) (l : list A) (i : nat) :
  l !! i = None -> alter h i l = l.
Proof.
  intros Hi. rewrite <- (list_alter_id (fun y => y) l i) at 2 by reflexivity.
  apply list_alter_ext; [| reflexivity]. intros y Hy. congruence.
Qed.

Lemma foldl_filter {S} (keep : nat -> bool) (step : S -> nat -> S)
  (indices : list nat) (a : S) :
  foldl step a (filter (fun i => keep i = true) indices)
  = foldl (fun a i => if keep i then step a i else a) a indices.
Proof.
  revert a. induction indices as [| i indices IH]; intros a; [reflexivity |].
  rewrite filter_cons. cbn [foldl]. destruct (keep i) eqn:Hk.
  - rewrite decide_True by reflexivity. cbn [foldl]. apply IH.
  - rewrite decide_False by discriminate. apply IH.
Qed.

Lemma foldl_alter_kept_from {A} (c : A -> bool) (h : A -> A)
  (todo orig before : list A) :
  length orig = length before ->
  foldl (fun acc i =>
           if match (orig ++ todo) !! i with Some x => c x | None => false end
           then alter h i acc else acc)
        (before ++ todo) (seq (length before) (length todo))
  = before ++ map (fun x => if c x then h x else x) todo.
Proof.
  revert orig before. induction todo as [| x todo IH]; intros orig before Hlen;
    cbn [length seq foldl map].
  - reflexivity.
  - rewrite (list_lookup_middle orig todo x (length before)) by (symmetry; exact Hlen).
    replace (if c x then alter h (length before) (before ++ x :: todo)
             else before ++ x :: todo)
      with ((before ++ [if c x then h x else x]) ++ todo).
    + replace (orig ++ x :: todo) with ((orig ++ [x]) ++ todo)
        by (rewrite <- app_assoc; reflexivity).
      replace (S (length before))
        with (length (before ++ [if c x then h x else x]))
        by (rewrite length_app; cbn; lia).
      rewrite IH by (rewrite !length_app; cbn; lia).
      rewrite <- app_assoc. reflexivity.
    + rewrite <- app_assoc. cbn [app]. destruct (c x); [| reflexivity].
      rewrite <- (Nat.add_0_r (length before)).
      rewrite alter_app_r. reflexivity.
Qed.

Lemma foldl_alter_kept {A} (c : A -> bool) (h : A -> A) (l : list A) :
  foldl (fun acc i =>
           if match l !! i with Some x => c x | None => false end
           then alter h i acc else acc)
        l (seq 0 (length l))
  = map (fun x => if c x then h x else x) l.
Proof. exact (foldl_alter_kept_from c h l [] [] eq_refl). Qed.

Lemma setPipelines_same (t : tektonPipelines) : setPipelines (pipelines t) t = t.
Proof. destruct t; reflexivity. Qed.
Lemma setConfigMaps_same (t : tektonPipelines) : setConfigMaps (configMaps t) t = t.
Proof. destruct t; reflexivity. Qed.
Lemma setRoleBindings_same (t : tektonPipelines) :
  setRoleBindings (roleBindings t) t = t.
Proof. destruct t; reflexivity. Qed.
Lemma setServiceAccounts_same (t : tektonPipelines) :
  setServiceAccounts (serviceAccounts t) t = t.
Proof. destruct t; reflexivity. Qed.
Lemma setClusterRoles_same (t : tektonPipelines) :
  setClusterRoles (clusterRoles t) t = t.
Proof. destruct t; reflexivity. Qed.

(** What a closure does when the builder has left the resource alone. *)
Ltac wrote w Hkeeps Hi :=
  match goal with
  | |- context [builder_Reconcile ?b w] =>
      let x := fresh "x" in
      let out := fresh "out" in
      let w1 := fresh "w" in
      let Hx := fresh "Hx" in
      let Hop := fresh "Hop" in
      destruct (builder_Reconcile_effect b w)
        as (x & out & w1 & -> & Hx & Hop & _ & _);
      rewrite Hkeeps in Hx; cbn in Hx; subst x; cbn; rewrite Hop;
      f_equal; apply insert_alter_lookup; exact Hi
  end.

Lemma call_written (request : Request) (f : ReconcileFunc) (w : World) :
  keepsResource ->
  operand (snd (call f request w)) = written request f (operand w).
Proof.
  intros Hkeeps. destruct f as [i | i | i | i | i]; cbn [written call].
  - unfold reconcilePipeline.
    destruct (pipelines (operand w) !! i) as [p |] eqn:Hi.
    + rewrite override_pipeline. wrote w Hkeeps Hi.
    + cbn [snd]. rewrite alter_lookup_None by exact Hi.
      symmetry. apply setPipelines_same.
  - unfold reconcileConfigMap.
    destruct (configMaps (operand w) !! i) as [cm |] eqn:Hi.
    + rewrite override_configMap. wrote w Hkeeps Hi.
    + cbn [snd]. rewrite alter_lookup_None by exact Hi.
      symmetry. apply setConfigMaps_same.
  - unfold reconcileServiceAccount.
    destruct (serviceAccounts (operand w) !! i) as [sa |] eqn:Hi.
    + cbv zeta. rewrite default_serviceAccount. wrote w Hkeeps Hi.
    + cbn [snd]. rewrite alter_lookup_None by exact Hi.
      symmetry. apply setServiceAccounts_same.
  - unfold reconcileClusterRole.
    destruct (clusterRoles (operand w) !! i) as [cr |] eqn:Hi; [| reflexivity].
    match goal with
    | |- context [builder_Reconcile ?b w] =>
        destruct (builder_Reconcile_effect b w)
          as (x & out & w1 & -> & Hx & Hop & _ & _)
    end.
    rewrite Hkeeps in Hx. cbn in Hx. subst x. cbn. rewrite Hop.
    rewrite list_insert_id by exact Hi. apply setClusterRoles_same.
  - unfold reconcileRoleBinding.
    destruct (roleBindings (operand w) !! i) as [rb |] eqn:Hi.
    + pose proof (patch_roleBinding request rb) as Hrb. cbv zeta in Hrb.
      cbv zeta. rewrite Hrb. wrote w Hkeeps Hi.
    + cbn [snd]. rewrite alter_lookup_None by exact Hi.
      symmetry. apply setRoleBindings_same.
Qed.

Lemma CollectResourceStatus_written (request : Request)
  (funcs : list ReconcileFunc) :
  keepsResource ->
  forall (w w' : World) (results : list ReconcileResult),
    CollectResourceStatus request funcs w = (Done results, w') ->
    operand w' = foldl (fun t f => written request f t) (operand w) funcs.
Proof.
  intros Hkeeps. induction funcs as [| f funcs IH]; intros w w' results Hrun.
  - cbn in Hrun. injection Hrun as _ <-. reflexivity.
  - cbn [CollectResourceStatus] in Hrun. unfold bind at 1 in Hrun.
    pose proof (call_written request f w Hkeeps) as Hw.
    destruct (call f request w) as [[status | e |] w1]; try discriminate.
    cbn [snd] in Hw. unfold bind in Hrun.
    destruct (CollectResourceStatus request funcs w1) as [[res | e |] w2] eqn:Hrest;
      try discriminate.
    unfold ret in Hrun. injection Hrun as _ <-.
    cbn [foldl]. rewrite <- Hw. apply (IH w1 w2 res Hrest).
Qed.

Lemma written_pipelines (request : Request) (indices : list nat) (t : tektonPipelines) :
  foldl (fun t f => written request f t) t (map pipelineFunc indices)
  = setPipelines
      (foldl (fun l i => alter (overridePipeline request) i l) (pipelines t) indices) t.
Proof.
  revert t. induction indices as [| i indices IH]; intros t; cbn [map foldl].
  - symmetry. apply setPipelines_same.
  - rewrite IH. reflexivity.
Qed.

Lemma written_configMaps (request : Request) (indices : list nat) (t : tektonPipelines) :
  foldl (fun t f => written request f t) t (map configMapFunc indices)
  = setConfigMaps
      (foldl (fun l i => alter (overrideConfigMap request) i l) (configMaps t) indices)
      t.
Proof.
  revert t. induction indices as [| i indices IH]; intros t; cbn [map foldl].
  - symmetry. apply setConfigMaps_same.
  - rewrite IH. reflexivity.
Qed.

Lemma written_roleBindings (request : Request) (indices : list nat)
  (t : tektonPipelines) :
  foldl (fun t f => written request f t) t (map roleBindingFunc indices)
  = setRoleBindings
      (foldl (fun l i => alter (patchRoleBinding request) i l) (roleBindings t) indices)
      t.
Proof.
  revert t. induction indices as [| i indices IH]; intros t; cbn [map foldl].
  - symmetry. apply setRoleBindings_same.
  - rewrite IH. reflexivity.
Qed.

Lemma written_serviceAccounts (request : Request) (indices : list nat)
  (t : tektonPipelines) :
  foldl (fun t f => written request f t) t (map serviceAccountFunc indices)
  = setServiceAccounts
      (foldl (fun l i => alter (defaultServiceAccount request) i l)
             (serviceAccounts t) indices)
      t.
Proof.
  revert t. induction indices as [| i indices IH]; intros t; cbn [map foldl].
  - symmetry. apply setServiceAccounts_same.
  - rewrite IH. reflexivity.
Qed.

Lemma written_clusterRoles (request : Request) (indices : list nat)
  (t : tektonPipelines) :
  foldl (fun t f => written request f t) t (map clusterRoleFunc indices) = t.
Proof.
  revert t. induction indices as [| i indices IH]; intros t; cbn [map foldl].
  - reflexivity.
  - apply IH.
Qed.

(** All the writes of a pass together. *)
Lemma written_pass (request : Request) (t : tektonPipelines) :
  foldl (fun t f => written request f t) t (passFuncs request t)
  = overridden request t.
Proof.
  unfold passFuncs.
  rewrite reconcileClusterRolesFuncs_seq, reconcileTektonPipelinesFuncs_seq,
    reconcileConfigMapsFuncs_seq, reconcileRoleBindingsFuncs_seq,
    reconcileServiceAccountsFuncs_kept.
  rewrite !foldl_app.
  rewrite written_clusterRoles, written_pipelines, written_configMaps,
    written_roleBindings, written_serviceAccounts.
  cbn [pipelines configMaps roleBindings serviceAccounts clusterRoles
       setPipelines setConfigMaps setRoleBindings setServiceAccounts].
  rewrite !foldl_alter_seq.
  rewrite (foldl_filter (keptIndex request (serviceAccounts t))).
  unfold keptIndex.
  rewrite (foldl_alter_kept (fun sa => negb (skipped request sa))
             (defaultServiceAccount request) (serviceAccounts t)).
  rewrite (map_ext _ (fun sa => if skipped request sa then sa
                                else defaultServiceAccount request sa))
    by (intros sa; destruct (skipped request sa); reflexivity).
  reflexivity.
Qed.

(** C1, as amended: the overrides of a request are written in place into
    the objects of the operand's slices.  When the builder leaves the
    resources it is given as they are and [Reconcile] returns results with
    the feature gate on, the slices hold afterwards: every pipeline and config map
    with the namespace override as its namespace when one is set; every
    role binding with the primary namespace of the request where it had no
    namespace and in all its subjects; every service account that was not
    skipped with the primary namespace where it had none; the cluster roles
    and the skipped service accounts as before.  Nothing else of an object
    changes. *)
Theorem Reconcile_writes_overrides (request : Request) (w w' : World)
  (results : list ReconcileResult) :
  keepsResource ->
  deployTektonTaskResources request = Some true ->
  Reconcile request w = (Done results, w') ->
  operand w'
  = {| pipelines := map (overridePipeline request) (pipelines (operand w));
       configMaps := map (overrideConfigMap request) (configMaps (operand w));
       roleBindings := map (patchRoleBinding request) (roleBindings (operand w));
       serviceAccounts :=
         map (fun sa => if skipped request sa then sa
                        else defaultServiceAccount request sa)
             (serviceAccounts (operand w));
       clusterRoles := clusterRoles (operand w) |}.
Proof.
  intros Hkeeps Hgate Hrun.
  destruct (CrdExists request tektonCrd) eqn:Hcrd.
  - rewrite (Reconcile_open request w Hgate Hcrd) in Hrun.
    destruct (CollectResourceStatus request (passFuncs request (operand w)) w)
      as [[res | e |] w1] eqn:Hpass; try discriminate.
    injection Hrun as _ <-. cbn [operand].
    rewrite (CollectResourceStatus_written request _ Hkeeps w w1 res Hpass).
    apply written_pass.
  - rewrite (Reconcile_crd_missing_eq request w Hgate Hcrd) in Hrun. discriminate.
Qed.
End Writes.

Lemma fake_keepsResource (version : string) : @keepsResource (fake.env version).
Proof.
  intros A H b live. cbn [builderReconcile fake.env]. unfold fake.createOrUpdate.
  destruct (fake.find (toObject (builderResource b)) live) as [[k found] |];
    [| reflexivity].
  destruct (match updateFunc b with
            | Some f => f (toObject (builderResource b)) found
            | None => Some (toObject (builderResource b), toObject (builderResource b))
            end) as [[desired updated] |]; [| reflexivity].
  destruct (decide (updated = found)); reflexivity.
Qed.

Lemma Reconcile_writes_overrides_witness :
  operand fake.moveWorld
  = {| pipelines :=
         map (overridePipeline fake.moveRequest)
             (pipelines (operand (fake.world "1.3.0" [])));
       configMaps :=
         map (overrideConfigMap fake.moveRequest)
             (configMaps (operand (fake.world "1.3.0" [])));
       roleBindings :=
         map (patchRoleBinding fake.moveRequest)
             (roleBindings (operand (fake.world "1.3.0" [])));
       serviceAccounts :=
         map (fun sa => if skipped fake.moveRequest sa then sa
                        else defaultServiceAccount fake.moveRequest sa)
             (serviceAccounts (operand (fake.world "1.3.0" [])));
       clusterRoles := clusterRoles (operand (fake.world "1.3.0" [])) |}.
Proof.
  apply (@Reconcile_writes_overrides (fake.env "1.3.0") fake.moveRequest
           (fake.world "1.3.0" []) fake.moveWorld fake.moveResults).
  - apply fake_keepsResource.
  - reflexivity.
  - vm_compute. reflexivity.
Defined.

(** C1, as stated, fails: a pass under the override [myapp] leaves the
    pipeline of the sample bundle, which was in the namespace [kubevirt],
    in the namespace [myapp], and the operand's slices are not what they
    were. *)
Lemma Reconcile_changes_bundle :
  map (fun p => metav1.Namespace (pipeline.ObjectMeta p))
      (pipelines (operand (fake.world "1.3.0" [])))
  = ["kubevirt"]
  /\ map (fun p => metav1.Namespace (pipeline.ObjectMeta p))
         (pipelines
            (operand (snd (@Reconcile (fake.env "1.3.0") fake.moveRequest
                                      (fake.world "1.3.0" [])))))
     = ["myapp"]
  /\ operand (snd (@Reconcile (fake.env "1.3.0") fake.moveRequest
                              (fake.world "1.3.0" [])))
     <> operand (fake.world "1.3.0" []).
Proof.
  split; [reflexivity |]. split; [vm_compute; reflexivity |].
  intros Heq.
  apply (f_equal (fun t => map (fun p => metav1.Namespace (pipeline.ObjectMeta p))
                               (pipelines t))) in Heq.
  vm_compute in Heq. discriminate.
Qed.

(** * Further properties of the operand *)

(** ** What no pass does to the operand *)

Section Shape.
Context {Env : Environment}.

Lemma sameExcept_shape (f : ReconcileFunc) (t t' : tektonPipelines) :
  sameExcept f t t' -> shape t' = shape t.
Proof.
  destruct f as [i | i | i | i | i]; intros [x ->]; unfold shape;
    cbn [pipelines configMaps roleBindings serviceAccounts clusterRoles
         setPipelines setConfigMaps setRoleBindings setServiceAccounts
         setClusterRoles];
    rewrite ?length_insert; reflexivity.
Qed.

Lemma sameExcept_serviceAccount (f : ReconcileFunc) (t t' : tektonPipelines)
  (i : nat) :
  sameExcept f t t' -> f <> serviceAccountFunc i ->
  serviceAccounts t' !! i = serviceAccounts t !! i.
Proof.
  destruct f as [j | j | j | j | j]; intros [x ->] Hne;
    cbn [serviceAccounts setPipelines setConfigMaps setRoleBindings
         setServiceAccounts setClusterRoles];
    try reflexivity.
  apply list_lookup_insert_ne. congruence.
Qed.

Lemma call_shape (f : ReconcileFunc) (request : Request) (w : World) :
  shape (operand (snd (call f request w))) = shape (operand w)
  /\ logs (snd (call f request w)) = logs w
  /\ forall i, f <> serviceAccountFunc i ->
       serviceAccounts (operand (snd (call f request w))) !! i
       = serviceAccounts (operand w) !! i.
Proof.
  pose proof (call_effect f request w) as Hcall.
  destruct (submission request (operand w) f) as [o |].
  - destruct Hcall as (out & w' & -> & _ & Hlogs & Hsame). cbn [snd].
    split; [exact (sameExcept_shape f _ _ Hsame) |]. split; [exact Hlogs |].
    intros i Hne. exact (sameExcept_serviceAccount f _ _ i Hsame Hne).
  - rewrite Hcall. cbn [snd]. auto.
Qed.

Lemma CollectResourceStatus_cons_snd (request : Request) (f : ReconcileFunc)
  (funcs : list ReconcileFunc) (w : World) :
  snd (CollectResourceStatus request (f :: funcs) w)
  = match call f request w with
    | (Done _, w1) => snd (CollectResourceStatus request funcs w1)
    | (_, w1) => w1
    end.
Proof.
  cbn [CollectResourceStatus]. unfold bind, ret.
  destruct (call f request w) as [[status | e |] w1]; try reflexivity.
  destruct (CollectResourceStatus request funcs w1) as [[res | e |] w2];
    reflexivity.
Qed.

Lemma CollectResourceStatus_shape (request : Request) (funcs : list ReconcileFunc)
  (w : World) :
  shape (operand (snd (CollectResourceStatus request funcs w))) = shape (operand w)
  /\ logs (snd (CollectResourceStatus request funcs w)) = logs w
  /\ forall i, serviceAccountFunc i ∉ funcs ->
       serviceAccounts (operand (snd (CollectResourceStatus request funcs w))) !! i
       = serviceAccounts (operand w) !! i.
Proof.
  revert w. induction funcs as [| f funcs IH]; intros w.
  - cbn. auto.
  - rewrite CollectResourceStatus_cons_snd.
    destruct (call_shape f request w) as (Hshape & Hlogs & Hsa).
    destruct (call f request w) as [[status | e |] w1]; cbn [snd] in *.
    + destruct (IH w1) as (Hshape1 & Hlogs1 & Hsa1).
      split; [rewrite Hshape1; exact Hshape |].
      split; [rewrite Hlogs1; exact Hlogs |].
      intros i Hi. apply not_elem_of_cons in Hi as [Hne Hi].
      rewrite Hsa1 by exact Hi. apply Hsa. congruence.
    + split; [exact Hshape |]. split; [exact Hlogs |].
      intros i Hi. apply not_elem_of_cons in Hi as [Hne Hi]. apply Hsa. congruence.
    + split; [exact Hshape |]. split; [exact Hlogs |].
      intros i Hi. apply not_elem_of_cons in Hi as [Hne Hi]. apply Hsa. congruence.
Qed.

(** The operand after [Reconcile] is the one the engine left, or the one
    it started from when the engine was not reached. *)
Lemma Reconcile_operand (request : Request) (w : World) :
  operand (snd (Reconcile request w))
  = if reachesEngine request
    then operand (snd (CollectResourceStatus request
                         (passFuncs request (operand w)) w))
    else operand w.
Proof.
  unfold reachesEngine.
  destruct (deployTektonTaskResources request) as [[|] |] eqn:Hgate.
  - destruct (CrdExists request tektonCrd) eqn:Hcrd.
    + rewrite (Reconcile_open request w Hgate Hcrd).
      destruct (CollectResourceStatus request (passFuncs request (operand w)) w)
        as [[res | e |] w1]; reflexivity.
    + rewrite (Reconcile_crd_missing_eq request w Hgate Hcrd). reflexivity.
  - rewrite (Reconcile_gate_off_eq request w Hgate). reflexivity.
  - rewrite (Reconcile_nil_featureGates request w (featureGates_nil request Hgate)).
    reflexivity.
Qed.

Lemma skipped_not_in_passFuncs (request : Request) (t : tektonPipelines)
  (i : nat) (sa : v1.ServiceAccount) :
  serviceAccounts t !! i = Some sa -> skipped request sa = true ->
  serviceAccountFunc i ∉ passFuncs request t.
Proof.
  intros Hi Hskip Hin. unfold passFuncs in Hin.
  rewrite reconcileClusterRolesFuncs_seq, reconcileTektonPipelinesFuncs_seq,
    reconcileConfigMapsFuncs_seq, reconcileRoleBindingsFuncs_seq in Hin.
  change (@map nat ReconcileFunc) with (@fmap list _ nat ReconcileFunc) in Hin.
  repeat (apply elem_of_app in Hin as [Hin | Hin]);
    try (apply list_elem_of_fmap in Hin as (j & Hj & _); discriminate).
  apply reconcileServiceAccountsFuncs_elem in Hin as (sa' & Hsa' & Hnot).
  congruence.
Qed.

(** X1: whatever the builder does and however the pass ends, [Reconcile]
    leaves each of the five slices with the length it had, and leaves every
    service account that the request skips exactly as it was. *)
Theorem Reconcile_keeps_shape (request : Request) (w : World) :
  length (pipelines (operand (snd (Reconcile request w))))
  = length (pipelines (operand w))
  /\ length (configMaps (operand (snd (Reconcile request w))))
     = length (configMaps (operand w))
  /\ length (roleBindings (operand (snd (Reconcile request w))))
     = length (roleBindings (operand w))
  /\ length (serviceAccounts (operand (snd (Reconcile request w))))
     = length (serviceAccounts (operand w))
  /\ length (clusterRoles (operand (snd (Reconcile request w))))
     = length (clusterRoles (operand w))
  /\ forall (i : nat) (sa : v1.ServiceAccount),
       serviceAccounts (operand w) !! i = Some sa ->
       skipped request sa = true ->
       serviceAccounts (operand (snd (Reconcile request w))) !! i = Some sa.
Proof.
  rewrite Reconcile_operand.
  destruct (reachesEngine request).
  - destruct (CollectResourceStatus_shape request (passFuncs request (operand w)) w)
      as (Hshape & _ & Hsa).
    unfold shape in Hshape. injection Hshape as H1 H2 H3 H4 H5.
    repeat split; try assumption.
    intros i sa Hi Hskip. rewrite Hsa; [exact Hi |].
    exact (skipped_not_in_passFuncs request (operand w) i sa Hi Hskip).
  - repeat split. intros i sa Hi _. exact Hi.
Qed.
End Shape.

(** ** What a pass submits, in which order, and what it logs *)

Section Submitted.
Context {Env : Environment}.

Lemma take_elem_of {A} (m : nat) (l : list A) (x : A) : x ∈ take m l -> x ∈ l.
Proof.
  intros Hx. apply elem_of_take in Hx as (i & Hi & _).
  apply list_elem_of_lookup. exists i. exact Hi.
Qed.

Lemma no_override (request : Request) :
  (forall tp, TektonPipelines_ (Spec (Instance request)) = Some tp ->
              Namespace tp = "") ->
  namespaceOverride request = None.
Proof.
  intros Hno. unfold namespaceOverride.
  destruct (TektonPipelines_ (Spec (Instance request))) as [tp |]; [| reflexivity].
  rewrite (Hno tp eq_refl). reflexivity.
Qed.

Lemma filter_all {A} (P : A -> Prop) `{!forall x, Decision (P x)} (l : list A) :
  (forall x, x ∈ l -> P x) -> filter P l = l.
Proof.
  induction l as [| x l IH]; intros Hall; [reflexivity |].
  rewrite filter_cons_True by (apply Hall; left).
  rewrite IH by (intros y Hy; apply Hall; right; exact Hy). reflexivity.
Qed.

Lemma filter_none {A} (P : A -> Prop) `{!forall x, Decision (P x)} (l : list A) :
  (forall x, x ∈ l -> ~ P x) -> filter P l = [].
Proof.
  induction l as [| x l IH]; intros Hnone; [reflexivity |].
  rewrite filter_cons_False by (apply Hnone; left).
  apply IH. intros y Hy. apply Hnone. right. exact Hy.
Qed.

(** X2: a pass that returns results with the feature gate on has
    submitted, in this order, every cluster role as it is, every pipeline
    and config map under the namespace override, every role binding with
    its namespace defaulted and its subjects rewritten, and every service
    account that is not skipped with its namespace defaulted; it returns as
    many results as it submitted objects. *)
Theorem Reconcile_order (request : Request) (w : World)
  (results : list ReconcileResult) :
  deployTektonTaskResources request = Some true ->
  fst (Reconcile request w) = Done results ->
  calls (snd (Reconcile request w))
  = calls w
    ++ map CallCreateOrUpdate
         (map OClusterRole (clusterRoles (operand w))
          ++ map (fun p => OPipeline (overridePipeline request p))
                 (pipelines (operand w))
          ++ map (fun cm => OConfigMap (overrideConfigMap request cm))
                 (configMaps (operand w))
          ++ map (fun rb => ORoleBinding (patchRoleBinding request rb))
                 (roleBindings (operand w))
          ++ map (fun sa => OServiceAccount (defaultServiceAccount request sa))
                 (filter (fun sa => skipped request sa = false)
                         (serviceAccounts (operand w))))
  /\ length results
     = length (clusterRoles (operand w)) + length (pipelines (operand w))
       + length (configMaps (operand w)) + length (roleBindings (operand w))
       + length (filter (fun sa => skipped request sa = false)
                        (serviceAccounts (operand w))).
Proof.
  intros Hgate Hres.
  destruct (Reconcile_calls request w) as (out & w' & m & Hrun & Hcalls & Hdone).
  rewrite Hrun in Hres |- *. cbn [fst snd] in *. subst out.
  destruct (Hdone results eq_refl Hgate) as [Hall Hlen].
  rewrite Hall in Hcalls. split; [exact Hcalls |].
  rewrite Hlen. unfold submissions. rewrite !length_app, !length_map. lia.
Qed.

(** X3: when the request sets no namespace override, be it that the
    [TektonPipelines] part is absent or that its namespace is the empty
    string, every pipeline and config map a pass submits is one of the
    operand's, as it is, and no service account is skipped: a pass that
    returns results with the feature gate on returns one for every object
    of the five slices. *)
Theorem Reconcile_without_override (request : Request) (w : World) :
  (forall tp, TektonPipelines_ (Spec (Instance request)) = Some tp ->
              Namespace tp = "") ->
  exists submitted : list Object,
    calls (snd (Reconcile request w)) = calls w ++ map CallCreateOrUpdate submitted
    /\ (forall p, OPipeline p ∈ submitted -> p ∈ pipelines (operand w))
    /\ (forall cm, OConfigMap cm ∈ submitted -> cm ∈ configMaps (operand w))
    /\ (forall results,
          fst (Reconcile request w) = Done results ->
          deployTektonTaskResources request = Some true ->
          length results
          = length (clusterRoles (operand w)) + length (pipelines (operand w))
            + length (configMaps (operand w)) + length (roleBindings (operand w))
            + length (serviceAccounts (operand w))).
Proof.
  intros Hno. apply no_override in Hno.
  destruct (Reconcile_calls request w) as (out & w' & m & Hrun & Hcalls & Hdone).
  exists (take m (submissions request (operand w))).
  rewrite Hrun. cbn [fst snd]. split; [exact Hcalls |]. repeat split.
  - intros p Hp. apply take_elem_of, elem_of_submissions in Hp.
    destruct Hp as [(x & Hx & _) | [(x & Hx & Hin) | [(x & Hx & _) |
                   [(x & Hx & _) | (x & Hx & _)]]]]; try discriminate.
    injection Hx as ->. unfold overridePipeline. rewrite Hno. exact Hin.
  - intros cm Hcm. apply take_elem_of, elem_of_submissions in Hcm.
    destruct Hcm as [(x & Hx & _) | [(x & Hx & _) | [(x & Hx & Hin) |
                    [(x & Hx & _) | (x & Hx & _)]]]]; try discriminate.
    injection Hx as ->. unfold overrideConfigMap. rewrite Hno. exact Hin.
  - intros results Hres Hgate. destruct (Hdone results Hres Hgate) as [_ ->].
    unfold submissions. rewrite !length_app, !length_map.
    rewrite filter_all; [lia |].
    intros sa _. unfold skipped. rewrite Hno. reflexivity.
Qed.

(** X4: every service account a pass submits is one of the operand's that
    the request does not skip, with the same name, labels and secrets; its
    namespace is the primary namespace of the request when the operand's
    had none and the operand's own otherwise, never the namespace
    override. *)
Theorem Reconcile_serviceAccount_namespace (request : Request) (w : World) :
  exists submitted : list Object,
    calls (snd (Reconcile request w)) = calls w ++ map CallCreateOrUpdate submitted
    /\ forall sa', OServiceAccount sa' ∈ submitted ->
         exists sa,
           sa ∈ serviceAccounts (operand w)
           /\ skipped request sa = false
           /\ metav1.Name (v1.ServiceAccountMeta sa')
              = metav1.Name (v1.ServiceAccountMeta sa)
           /\ metav1.Labels (v1.ServiceAccountMeta sa')
              = metav1.Labels (v1.ServiceAccountMeta sa)
           /\ v1.Secrets sa' = v1.Secrets sa
           /\ metav1.Namespace (v1.ServiceAccountMeta sa')
              = (if String.eqb (metav1.Namespace (v1.ServiceAccountMeta sa)) ""
                 then InstanceNamespace (Instance request)
                 else metav1.Namespace (v1.ServiceAccountMeta sa)).
Proof.
  destruct (Reconcile_calls request w) as (out & w' & m & Hrun & Hcalls & _).
  exists (take m (submissions request (operand w))).
  rewrite Hrun. cbn [snd]. split; [exact Hcalls |].
  intros sa' Hsa. apply take_elem_of, elem_of_submissions in Hsa.
  destruct Hsa as [(x & Hx & _) | [(x & Hx & _) | [(x & Hx & _) |
                  [(x & Hx & _) | (x & Hx & Hskip & Hin)]]]]; try discriminate.
  injection Hx as ->. exists x. split; [exact Hin |]. split; [exact Hskip |].
  unfold defaultServiceAccount, defaultNamespace.
  cbn [v1.ServiceAccountMeta v1.Secrets v1.SetServiceAccountMeta].
  destruct (String.eqb (metav1.Namespace (v1.ServiceAccountMeta x)) "");
    repeat split.
Qed.

(** X5: every role binding a pass submits is one of the operand's with the
    same name, labels and role reference and with the same subjects in the
    same order, of which only the namespaces differ. *)
Theorem Reconcile_roleBinding_subjects (request : Request) (w : World) :
  exists submitted : list Object,
    calls (snd (Reconcile request w)) = calls w ++ map CallCreateOrUpdate submitted
    /\ forall rb, ORoleBinding rb ∈ submitted ->
         exists rb0,
           rb0 ∈ roleBindings (operand w)
           /\ metav1.Name (rbac.RoleBindingMeta rb)
              = metav1.Name (rbac.RoleBindingMeta rb0)
           /\ metav1.Labels (rbac.RoleBindingMeta rb)
              = metav1.Labels (rbac.RoleBindingMeta rb0)
           /\ rbac.Ref rb = rbac.Ref rb0
           /\ map (fun s => (rbac.Kind s, rbac.APIGroup s, rbac.Name s))
                  (rbac.Subjects rb)
              = map (fun s => (rbac.Kind s, rbac.APIGroup s, rbac.Name s))
                    (rbac.Subjects rb0).
Proof.
  destruct (Reconcile_calls request w) as (out & w' & m & Hrun & Hcalls & _).
  exists (take m (submissions request (operand w))).
  rewrite Hrun. cbn [snd]. split; [exact Hcalls |].
  intros rb Hrb. apply take_elem_of, elem_of_submissions in Hrb.
  destruct Hrb as [(x & Hx & _) | [(x & Hx & _) | [(x & Hx & _) |
                  [(x & Hx & Hin) | (x & Hx & _)]]]]; try discriminate.
  injection Hx as ->. exists x. split; [exact Hin |].
  unfold patchRoleBinding, defaultNamespace.
  cbn [rbac.RoleBindingMeta rbac.Subjects rbac.Ref].
  repeat split.
  - destruct (String.eqb (metav1.Namespace (rbac.RoleBindingMeta x)) "");
      reflexivity.
  - destruct (String.eqb (metav1.Namespace (rbac.RoleBindingMeta x)) "");
      reflexivity.
  - rewrite map_map. apply map_ext. intros s. reflexivity.
Qed.

(** The log after [Reconcile] when the engine was reached. *)
Lemma Reconcile_not_done (request : Request) (w : World) :
  (forall results, fst (Reconcile request w) <> Done results) ->
  logs (snd (Reconcile request w)) = logs w.
Proof.
  intros Hnot.
  destruct (deployTektonTaskResources request) as [[|] |] eqn:Hgate.
  - destruct (CrdExists request tektonCrd) eqn:Hcrd.
    + rewrite (Reconcile_open request w Hgate Hcrd) in Hnot |- *.
      destruct (CollectResourceStatus_shape request
                  (passFuncs request (operand w)) w) as (_ & Hlogs & _).
      destruct (CollectResourceStatus request (passFuncs request (operand w)) w)
        as [[res | e |] w1]; cbn [fst snd] in *; try exact Hlogs.
      exfalso. exact (Hnot res eq_refl).
    + rewrite (Reconcile_crd_missing_eq request w Hgate Hcrd). reflexivity.
  - exfalso. apply (Hnot []). rewrite (Reconcile_gate_off_eq request w Hgate).
    reflexivity.
  - rewrite (Reconcile_nil_featureGates request w (featureGates_nil request Hgate)).
    reflexivity.
Qed.

(** The engine stopped by an error: the function that returned it, the
    object it submitted, and what had been done before. *)
Lemma CollectResourceStatus_fail_at (request : Request) (t0 : tektonPipelines)
  (funcs : list ReconcileFunc) (objs : list Object) :
  NoDup funcs ->
  Forall2 (fun f o => submission request t0 f = Some o) funcs objs ->
  forall w : World,
    (forall g, g ∈ funcs ->
               submission request (operand w) g = submission request t0 g) ->
    forall (e : error) (w' : World),
      CollectResourceStatus request funcs w = (Fail e, w') ->
      exists (k : nat) (f : ReconcileFunc) (o : Object)
             (results : list ReconcileResult) (wk : World),
        funcs !! k = Some f
        /\ objs !! k = Some o
        /\ CollectResourceStatus request (take k funcs) w = (Done results, wk)
        /\ length results = k
        /\ call f request wk = (Fail e, w')
        /\ calls wk = calls w ++ map CallCreateOrUpdate (take k objs)
        /\ calls w' = calls wk ++ [CallCreateOrUpdate o].
Proof.
  intros Hnodup Hsub.
  induction Hsub as [| f o funcs objs Hf Hrest IH]; intros w Hagree e w' Hrun.
  - cbn in Hrun. discriminate.
  - apply NoDup_cons in Hnodup as [Hnotin Hnodup].
    pose proof (call_effect f request w) as Hcall.
    rewrite (Hagree f) in Hcall by left. rewrite Hf in Hcall.
    destruct Hcall as (out1 & w1 & Hcall & Hcalls1 & _ & Hsame).
    cbn [CollectResourceStatus] in Hrun. unfold bind at 1 in Hrun.
    rewrite Hcall in Hrun. destruct out1 as [status | e0 |].
    + unfold bind in Hrun.
      destruct (CollectResourceStatus request funcs w1) as [[res | e1 |] w2] eqn:Hgo;
        unfold ret in Hrun; try discriminate.
      injection Hrun as -> ->.
      destruct (IH Hnodup w1) with (e := e) (w' := w')
        as (k & f' & o' & results & wk & Hk & Hok & Hbefore & Hlen & Hfail & Hcb & Hca).
      { intros g Hg. rewrite <- (Hagree g) by (right; exact Hg).
        apply (submission_frame request f g); [exact Hsame |].
        intros ->. contradiction. }
      { exact Hgo. }
      exists (S k), f', o', (status :: results), wk.
      split; [exact Hk |]. split; [exact Hok |]. split.
      { cbn [take CollectResourceStatus]. unfold bind at 1. rewrite Hcall.
        unfold bind. rewrite Hbefore. reflexivity. }
      split; [cbn; congruence |]. split; [exact Hfail |].
      split; [| exact Hca].
      rewrite Hcb, Hcalls1, <- app_assoc. reflexivity.
    + injection Hrun as -> ->.
      exists 0, f, o, [], w.
      split; [reflexivity |]. split; [reflexivity |].
      split; [reflexivity |]. split; [reflexivity |].
      split; [exact Hcall |]. split; [| exact Hcalls1].
      cbn. rewrite app_nil_r. reflexivity.
    + discriminate.
Qed.

(** X6: when [Reconcile] returns an error it has logged nothing.  Either
    the CRD is missing, the error says so and nothing was done; or the
    error is the one that the reconcile function of some object of the pass
    returned: the functions of the objects before it had all returned a
    result, that object was submitted last, and no object behind it was
    submitted. *)
Theorem Reconcile_failure (request : Request) (w : World) (e : error) :
  fst (Reconcile request w) = Fail e ->
  logs (snd (Reconcile request w)) = logs w
  /\ ((CrdExists request tektonCrd = false
       /\ e = "Tekton CRD tasks.tekton.dev does not exist"
       /\ snd (Reconcile request w) = w)
      \/ exists (k : nat) (f : ReconcileFunc) (o : Object)
                (results : list ReconcileResult) (wk : World),
           passFuncs request (operand w) !! k = Some f
           /\ submissions request (operand w) !! k = Some o
           /\ CollectResourceStatus request (take k (passFuncs request (operand w))) w
              = (Done results, wk)
           /\ length results = k
           /\ call f request wk = (Fail e, snd (Reconcile request w))
           /\ calls wk
              = calls w
                ++ map CallCreateOrUpdate (take k (submissions request (operand w)))
           /\ calls (snd (Reconcile request w)) = calls wk ++ [CallCreateOrUpdate o]).
Proof.
  intros Hfail. split.
  - apply Reconcile_not_done. intros results Hres. congruence.
  - destruct (deployTektonTaskResources request) as [[|] |] eqn:Hgate.
    + destruct (CrdExists request tektonCrd) eqn:Hcrd.
      * right. rewrite (Reconcile_open request w Hgate Hcrd) in Hfail |- *.
        destruct (CollectResourceStatus request (passFuncs request (operand w)) w)
          as [[res | e1 |] w1] eqn:Hrun; cbn [fst snd] in *; try discriminate.
        injection Hfail as ->.
        exact (CollectResourceStatus_fail_at request (operand w)
                 (passFuncs request (operand w))
                 (submissions request (operand w))
                 (passFuncs_NoDup request (operand w))
                 (passFuncs_submissions request (operand w)) w
                 (fun g _ => eq_refl) e w1 Hrun).
      * left. rewrite (Reconcile_crd_missing_eq request w Hgate Hcrd) in Hfail |- *.
        cbn [fst snd] in *. injection Hfail as <-. auto.
    + rewrite (Reconcile_gate_off_eq request w Hgate) in Hfail. discriminate.
    + rewrite (Reconcile_nil_featureGates request w (featureGates_nil request Hgate))
        in Hfail. discriminate.
Qed.

(** X7: with the feature gate on and the CRD present, an operand that has
    no cluster role, pipeline, config map or role binding and whose service
    accounts are all skipped gets the empty result list and no error, with
    no call made and nothing logged or written. *)
Theorem Reconcile_nothing_to_submit (request : Request) (w : World) :
  deployTektonTaskResources request = Some true ->
  CrdExists request tektonCrd = true ->
  clusterRoles (operand w) = [] ->
  pipelines (operand w) = [] ->
  configMaps (operand w) = [] ->
  roleBindings (operand w) = [] ->
  (forall sa, sa ∈ serviceAccounts (operand w) -> skipped request sa = true) ->
  Reconcile request w = (Done [], w).
Proof.
  intros Hgate Hcrd Hcr Hp Hcm Hrb Hsa.
  rewrite (Reconcile_open request w Hgate Hcrd).
  assert (Hfuncs : passFuncs request (operand w) = []).
  { unfold passFuncs. rewrite Hcr, Hp, Hcm, Hrb. cbn.
    apply length_zero_iff_nil. rewrite reconcileServiceAccountsFuncs_length.
    rewrite filter_none; [reflexivity |].
    intros sa Hin. rewrite (Hsa sa Hin). discriminate. }
  rewrite Hfuncs. cbn [CollectResourceStatus]. unfold ret, revertLines.
  rewrite filter_nil. cbn [map].
  destruct (isUpgradingNow request); rewrite app_nil_r; destruct w; reflexivity.
Qed.
End Submitted.

(** ** More on the update function of a pipeline *)

Section UpdateFuncMore.
Context {Env : Environment}.

Lemma virtioParam_idem (param : pipeline.ParamSpec) :
  virtioParam (virtioParam param) = virtioParam param.
Proof.
  unfold virtioParam.
  destruct (strings.HasPrefix (pipeline.Name param) "virtioContainer") eqn:Hp;
    cbn [pipeline.SetDefault pipeline.Name]; rewrite Hp; reflexivity.
Qed.

Lemma pipelineUpdateFunc_pipelines (newPipeline foundPipeline : pipeline.Pipeline) :
  pipelineUpdateFunc (OPipeline newPipeline) (OPipeline foundPipeline)
  = Some (OPipeline
            (pipeline.SetSpec
               (pipeline.SetParams
                  (map virtioParam (pipeline.Params (pipeline.Spec newPipeline)))
                  (pipeline.Spec newPipeline))
               newPipeline),
          OPipeline
            (pipeline.SetSpec
               (pipeline.SetParams
                  (map virtioParam (pipeline.Params (pipeline.Spec newPipeline)))
                  (pipeline.Spec newPipeline))
               foundPipeline)).
Proof.
  unfold pipelineUpdateFunc.
  cbn [pipeline.SetSpec pipeline.Spec pipeline.ObjectMeta].
  rewrite (foldl_alter_when_seq
             (fun param => strings.HasPrefix (pipeline.Name param) "virtioContainer")).
  reflexivity.
Qed.

(** X8: the update function panics exactly when the desired or the found
    object it is given is not a pipeline. *)
Theorem pipelineUpdateFunc_panics (newRes foundRes : Object) :
  pipelineUpdateFunc newRes foundRes = None
  <-> kindOf newRes <> KindPipeline \/ kindOf foundRes <> KindPipeline.
Proof.
  destruct newRes as [np | | | |], foundRes as [fp | | | |];
    try (split; [intros _ | reflexivity]; cbn [kindOf];
         first [left; discriminate | right; discriminate]).
  rewrite pipelineUpdateFunc_pipelines. cbn [kindOf].
  split; [discriminate | intros [H | H]; contradiction].
Qed.

(** X9: the update function writes into the desired pipeline as well: it
    comes back with the virtio image of the running operator as the default
    of every parameter whose name starts with [virtioContainer], and is
    otherwise as it was given. *)
Theorem pipelineUpdateFunc_writes_desired (newPipeline foundPipeline : pipeline.Pipeline) :
  exists foundRes : Object,
    pipelineUpdateFunc (OPipeline newPipeline) (OPipeline foundPipeline)
    = Some (OPipeline
              {| pipeline.ObjectMeta := pipeline.ObjectMeta newPipeline;
                 pipeline.Spec :=
                   {| pipeline.Description :=
                        pipeline.Description (pipeline.Spec newPipeline);
                      pipeline.Tasks := pipeline.Tasks (pipeline.Spec newPipeline);
                      pipeline.Params :=
                        map (fun param =>
                               if String.prefix "virtioContainer" (pipeline.Name param)
                               then pipeline.SetDefault
                                      (Some {| pipeline.Type_ := pipeline.ParamTypeString;
                                               pipeline.StringVal := GetVirtioImage;
                                               pipeline.ArrayVal := [];
                                               pipeline.ObjectVal := ∅ |})
                                      param
                               else param)
                            (pipeline.Params (pipeline.Spec newPipeline));
                      pipeline.Workspaces :=
                        pipeline.Workspaces (pipeline.Spec newPipeline);
                      pipeline.Results := pipeline.Results (pipeline.Spec newPipeline);
                      pipeline.Finally :=
                        pipeline.Finally (pipeline.Spec newPipeline) |} |},
            foundRes).
Proof.
  eexists. rewrite pipelineUpdateFunc_pipelines. reflexivity.
Qed.

(** X10: what the update function leaves in the found pipeline does not
    depend on the spec that was found, and updating once more changes
    nothing, be it against the desired pipeline as it was or as the first
    update left it.  The parameters keep the names, types and descriptions
    of the desired ones, in order. *)
Theorem pipelineUpdateFunc_settles
  (newPipeline foundPipeline otherFound : pipeline.Pipeline) :
  match pipelineUpdateFunc (OPipeline newPipeline) (OPipeline foundPipeline) with
  | Some (OPipeline newPipeline', OPipeline foundPipeline') =>
      pipelineUpdateFunc (OPipeline newPipeline) (OPipeline foundPipeline')
      = Some (OPipeline newPipeline', OPipeline foundPipeline')
      /\ pipelineUpdateFunc (OPipeline newPipeline') (OPipeline foundPipeline')
         = Some (OPipeline newPipeline', OPipeline foundPipeline')
      /\ pipelineUpdateFunc (OPipeline newPipeline)
           (OPipeline (pipeline.SetSpec (pipeline.Spec otherFound) foundPipeline))
         = Some (OPipeline newPipeline', OPipeline foundPipeline')
      /\ map (fun param => (pipeline.Name param, pipeline.ParamType_ param,
                            pipeline.ParamDescription param))
             (pipeline.Params (pipeline.Spec foundPipeline'))
         = map (fun param => (pipeline.Name param, pipeline.ParamType_ param,
                              pipeline.ParamDescription param))
               (pipeline.Params (pipeline.Spec newPipeline))
  | _ => False
  end.
Proof.
  rewrite !pipelineUpdateFunc_pipelines.
  cbn [pipeline.SetSpec pipeline.SetParams pipeline.Spec pipeline.ObjectMeta
       pipeline.Params pipeline.Description pipeline.Tasks pipeline.Workspaces
       pipeline.Results pipeline.Finally].
  rewrite map_map.
  rewrite (map_ext (fun x => virtioParam (virtioParam x)) virtioParam virtioParam_idem).
  repeat split.
  rewrite map_map. apply map_ext. intros param. unfold virtioParam.
  destruct (strings.HasPrefix (pipeline.Name param) "virtioContainer"); reflexivity.
Qed.
End UpdateFuncMore.

(** ** One pass after another, and cleanup after a pass *)

Section TwoPasses.
Context {Env : Environment}.

(** The operand after a pass that went through, the builder leaving the
    resources alone. *)
Lemma Reconcile_overridden (request : Request) (w w' : World)
  (results : list ReconcileResult) :
  keepsResource ->
  deployTektonTaskResources request = Some true ->
  Reconcile request w = (Done results, w') ->
  operand w' = overridden request (operand w).
Proof.
  intros Hkeeps Hgate Hrun.
  destruct (CrdExists request tektonCrd) eqn:Hcrd.
  - rewrite (Reconcile_open request w Hgate Hcrd) in Hrun.
    destruct (CollectResourceStatus request (passFuncs request (operand w)) w)
      as [[res | e |] w1] eqn:Hpass; try discriminate.
    injection Hrun as _ <-. cbn [operand].
    rewrite (CollectResourceStatus_written request _ Hkeeps w w1 res Hpass).
    apply written_pass.
  - rewrite (Reconcile_crd_missing_eq request w Hgate Hcrd) in Hrun. discriminate.
Qed.

Lemma Reconcile_done_calls (request : Request) (w w' : World)
  (results : list ReconcileResult) :
  deployTektonTaskResources request = Some true ->
  Reconcile request w = (Done results, w') ->
  calls w' = calls w ++ map CallCreateOrUpdate (submissions request (operand w)).
Proof.
  intros Hgate Hrun.
  destruct (Reconcile_calls request w) as (out & w1 & m & Hrun1 & Hcalls & Hdone).
  rewrite Hrun in Hrun1. injection Hrun1 as <- <-.
  destruct (Hdone results eq_refl Hgate) as [Hall _].
  rewrite Hall in Hcalls. exact Hcalls.
Qed.

Lemma defaultNamespace_idem (ns : string) (m : metav1.ObjectMeta) :
  defaultNamespace ns (defaultNamespace ns m) = defaultNamespace ns m.
Proof.
  unfold defaultNamespace.
  destruct (String.eqb (metav1.Namespace m) "") eqn:Hm; [| rewrite Hm; reflexivity].
  cbn [metav1.SetNamespace metav1.Namespace metav1.Name metav1.Labels].
  destruct (String.eqb ns ""); reflexivity.
Qed.

Lemma overridePipeline_idem (request : Request) (p : pipeline.Pipeline) :
  overridePipeline request (overridePipeline request p) = overridePipeline request p.
Proof. unfold overridePipeline. destruct (namespaceOverride request); reflexivity. Qed.

Lemma overrideConfigMap_idem (request : Request) (cm : v1.ConfigMap) :
  overrideConfigMap request (overrideConfigMap request cm)
  = overrideConfigMap request cm.
Proof. unfold overrideConfigMap. destruct (namespaceOverride request); reflexivity. Qed.

Lemma patchRoleBinding_idem (request : Request) (rb : rbac.RoleBinding) :
  patchRoleBinding request (patchRoleBinding request rb) = patchRoleBinding request rb.
Proof.
  unfold patchRoleBinding. cbn [rbac.RoleBindingMeta rbac.Subjects rbac.Ref].
  rewrite defaultNamespace_idem, map_map. reflexivity.
Qed.

Lemma defaultServiceAccount_idem (request : Request) (sa : v1.ServiceAccount) :
  defaultServiceAccount request (defaultServiceAccount request sa)
  = defaultServiceAccount request sa.
Proof.
  unfold defaultServiceAccount.
  cbn [v1.SetServiceAccountMeta v1.ServiceAccountMeta v1.Secrets].
  rewrite defaultNamespace_idem. reflexivity.
Qed.

Lemma skipped_defaultServiceAccount (request request' : Request)
  (sa : v1.ServiceAccount) :
  skipped request (defaultServiceAccount request' sa) = skipped request sa.
Proof.
  unfold skipped, defaultServiceAccount, defaultNamespace.
  cbn [v1.SetServiceAccountMeta v1.ServiceAccountMeta].
  destruct (String.eqb (metav1.Namespace (v1.ServiceAccountMeta sa)) "");
    reflexivity.
Qed.

Lemma overridden_idem (request : Request) (t : tektonPipelines) :
  overridden request (overridden request t) = overridden request t.
Proof.
  unfold overridden.
  cbn [pipelines configMaps roleBindings serviceAccounts clusterRoles].
  rewrite !map_map. f_equal; apply map_ext; intros x.
  - apply overridePipeline_idem.
  - apply overrideConfigMap_idem.
  - apply patchRoleBinding_idem.
  - destruct (skipped request x) eqn:Hs.
    + rewrite Hs. reflexivity.
    + rewrite skipped_defaultServiceAccount, Hs. apply defaultServiceAccount_idem.
Qed.

Lemma submissions_overridden (request : Request) (t : tektonPipelines) :
  submissions request (overridden request t) = submissions request t.
Proof.
  unfold submissions, overridden.
  cbn [pipelines configMaps roleBindings serviceAccounts clusterRoles].
  rewrite !map_map. f_equal. f_equal; [| f_equal; [| f_equal]].
  - apply map_ext. intros p. rewrite overridePipeline_idem. reflexivity.
  - apply map_ext. intros cm. rewrite overrideConfigMap_idem. reflexivity.
  - apply map_ext. intros rb. rewrite patchRoleBinding_idem. reflexivity.
  - induction (serviceAccounts t) as [| sa sas IH]; [reflexivity |].
    cbn [map]. rewrite !filter_cons.
    destruct (skipped request sa) eqn:Hs.
    + rewrite Hs. rewrite !decide_False by discriminate. exact IH.
    + rewrite skipped_defaultServiceAccount, Hs.
      rewrite !decide_True by reflexivity. cbn [map].
      rewrite defaultServiceAccount_idem, IH. reflexivity.
Qed.

(** X11: when the builder leaves the resources it is given as they are,
    a second pass for the same request, after one that returned results
    with the feature gate on, submits the same objects in the same order
    and leaves the operand as the first pass left it. *)
Theorem Reconcile_twice (request : Request) (w w1 w2 : World)
  (results1 results2 : list ReconcileResult) :
  keepsResource ->
  deployTektonTaskResources request = Some true ->
  Reconcile request w = (Done results1, w1) ->
  Reconcile request w1 = (Done results2, w2) ->
  operand w2 = operand w1
  /\ exists submitted : list Object,
       calls w1 = calls w ++ map CallCreateOrUpdate submitted
       /\ calls w2 = calls w1 ++ map CallCreateOrUpdate submitted.
Proof.
  intros Hkeeps Hgate Hrun1 Hrun2.
  pose proof (Reconcile_overridden request w w1 results1 Hkeeps Hgate Hrun1) as Hop1.
  pose proof (Reconcile_overridden request w1 w2 results2 Hkeeps Hgate Hrun2) as Hop2.
  split.
  - rewrite Hop2, Hop1. apply overridden_idem.
  - exists (submissions request (operand w)). split.
    + exact (Reconcile_done_calls request w w1 results1 Hgate Hrun1).
    + rewrite (Reconcile_done_calls request w1 w2 results2 Hgate Hrun2).
      rewrite Hop1, submissions_overridden. reflexivity.
Qed.

(** X12: the namespace override stays in the operand.  When the builder
    leaves the resources it is given as they are, after a pass that
    returned results under an override every pipeline and config map that a
    later pass submits for a request without override is still in the
    namespace of that override. *)
Theorem Reconcile_override_sticks (request request' : Request) (w w1 : World)
  (results : list ReconcileResult) (tp : TektonPipelines) :
  keepsResource ->
  deployTektonTaskResources request = Some true ->
  TektonPipelines_ (Spec (Instance request)) = Some tp ->
  String.eqb (Namespace tp) "" = false ->
  Reconcile request w = (Done results, w1) ->
  (forall tp', TektonPipelines_ (Spec (Instance request')) = Some tp' ->
               Namespace tp' = "") ->
  exists submitted : list Object,
    calls (snd (Reconcile request' w1)) = calls w1 ++ map CallCreateOrUpdate submitted
    /\ (forall p, OPipeline p ∈ submitted ->
                  metav1.Namespace (pipeline.ObjectMeta p) = Namespace tp)
    /\ (forall cm, OConfigMap cm ∈ submitted ->
                   metav1.Namespace (v1.ConfigMapMeta cm) = Namespace tp)
    /\ (forall results',
          fst (Reconcile request' w1) = Done results' ->
          deployTektonTaskResources request' = Some true ->
          forall p, p ∈ pipelines (operand w1) -> OPipeline p ∈ submitted).
Proof.
  intros Hkeeps Hgate Htp Hns Hrun Hno.
  pose proof (Reconcile_overridden request w w1 results Hkeeps Hgate Hrun) as Hop.
  pose proof (namespaceOverride_set request tp Htp Hns) as Hov.
  apply no_override in Hno.
  destruct (Reconcile_calls request' w1) as (out & w' & m & Hrun' & Hcalls & Hdone).
  exists (take m (submissions request' (operand w1))).
  rewrite Hrun'. cbn [fst snd]. split; [exact Hcalls |]. repeat split.
  - intros p Hp. apply take_elem_of, elem_of_submissions in Hp.
    destruct Hp as [(x & Hx & _) | [(x & Hx & Hin) | [(x & Hx & _) |
                   [(x & Hx & _) | (x & Hx & _)]]]]; try discriminate.
    injection Hx as ->. unfold overridePipeline at 1. rewrite Hno.
    rewrite Hop in Hin. cbn [overridden pipelines] in Hin.
    change (map ?f ?l) with (f <$> l) in Hin.
    apply list_elem_of_fmap in Hin as (p0 & -> & _).
    unfold overridePipeline. rewrite Hov. reflexivity.
  - intros cm Hcm. apply take_elem_of, elem_of_submissions in Hcm.
    destruct Hcm as [(x & Hx & _) | [(x & Hx & _) | [(x & Hx & Hin) |
                    [(x & Hx & _) | (x & Hx & _)]]]]; try discriminate.
    injection Hx as ->. unfold overrideConfigMap at 1. rewrite Hno.
    rewrite Hop in Hin. cbn [overridden configMaps] in Hin.
    change (map ?f ?l) with (f <$> l) in Hin.
    apply list_elem_of_fmap in Hin as (cm0 & -> & _).
    unfold overrideConfigMap. rewrite Hov. reflexivity.
  - intros results' Hres Hgate' p Hp.
    destruct (Hdone results' Hres Hgate') as [-> _].
    apply elem_of_submissions. right. left. exists p.
    split; [| exact Hp]. unfold overridePipeline. rewrite Hno. reflexivity.
Qed.

(** X13: the namespace a pass gives to a role binding or service account
    that had none stays in the operand.  When the builder leaves the
    resources it is given as they are, after a pass that returned results
    for a request whose primary namespace is not empty, every role binding
    that a later pass submits, for whatever request, and every service
    account it submits that the first request did not skip, has the
    namespace the first pass left it with: the primary namespace of the
    first request where the bundle gave none.  The subjects of the role
    bindings get the primary namespace of the later request. *)
Theorem Reconcile_default_namespace_sticks (request request' : Request)
  (w w1 : World) (results : list ReconcileResult) :
  keepsResource ->
  deployTektonTaskResources request = Some true ->
  String.eqb (InstanceNamespace (Instance request)) "" = false ->
  Reconcile request w = (Done results, w1) ->
  exists submitted : list Object,
    calls (snd (Reconcile request' w1)) = calls w1 ++ map CallCreateOrUpdate submitted
    /\ (forall rb, ORoleBinding rb ∈ submitted ->
          exists rb0,
            rb0 ∈ roleBindings (operand w)
            /\ metav1.Name (rbac.RoleBindingMeta rb)
               = metav1.Name (rbac.RoleBindingMeta rb0)
            /\ metav1.Namespace (rbac.RoleBindingMeta rb)
               = (if String.eqb (metav1.Namespace (rbac.RoleBindingMeta rb0)) ""
                  then InstanceNamespace (Instance request)
                  else metav1.Namespace (rbac.RoleBindingMeta rb0))
            /\ Forall (fun subject =>
                         rbac.Namespace subject = InstanceNamespace (Instance request'))
                      (rbac.Subjects rb))
    /\ (forall sa, OServiceAccount sa ∈ submitted ->
          skipped request sa = true
          \/ exists sa0,
               sa0 ∈ serviceAccounts (operand w)
               /\ metav1.Name (v1.ServiceAccountMeta sa)
                  = metav1.Name (v1.ServiceAccountMeta sa0)
               /\ metav1.Namespace (v1.ServiceAccountMeta sa)
                  = (if String.eqb (metav1.Namespace (v1.ServiceAccountMeta sa0)) ""
                     then InstanceNamespace (Instance request)
                     else metav1.Namespace (v1.ServiceAccountMeta sa0))).
Proof.
  intros Hkeeps Hgate Hprimary Hrun.
  pose proof (Reconcile_overridden request w w1 results Hkeeps Hgate Hrun) as Hop.
  assert (Hpinned : forall m : metav1.ObjectMeta,
             metav1.Name (defaultNamespace (InstanceNamespace (Instance request'))
                            (defaultNamespace (InstanceNamespace (Instance request)) m))
             = metav1.Name m
             /\ metav1.Namespace
                  (defaultNamespace (InstanceNamespace (Instance request'))
                     (defaultNamespace (InstanceNamespace (Instance request)) m))
                = (if String.eqb (metav1.Namespace m) ""
                   then InstanceNamespace (Instance request)
                   else metav1.Namespace m)).
  { intros m. unfold defaultNamespace.
    destruct (String.eqb (metav1.Namespace m) "") eqn:Hm.
    - cbn [metav1.SetNamespace metav1.Namespace]. rewrite Hprimary.
      split; reflexivity.
    - rewrite Hm. split; reflexivity. }
  destruct (Reconcile_calls request' w1) as (out & w' & m & Hrun' & Hcalls & _).
  exists (take m (submissions request' (operand w1))).
  rewrite Hrun'. cbn [snd]. split; [exact Hcalls |]. split.
  - intros rb Hrb. apply take_elem_of, elem_of_submissions in Hrb.
    destruct Hrb as [(x & Hx & _) | [(x & Hx & _) | [(x & Hx & _) |
                    [(x & Hx & Hin) | (x & Hx & _)]]]]; try discriminate.
    injection Hx as ->.
    rewrite Hop in Hin. cbn [overridden roleBindings] in Hin.
    change (map ?f ?l) with (f <$> l) in Hin.
    apply list_elem_of_fmap in Hin as (rb0 & -> & Hin0).
    exists rb0. split; [exact Hin0 |].
    unfold patchRoleBinding. cbn [rbac.RoleBindingMeta rbac.Subjects].
    destruct (Hpinned (rbac.RoleBindingMeta rb0)) as [Hname Hnamespace].
    split; [exact Hname |]. split; [exact Hnamespace |].
    apply Forall_forall. intros subject Hs.
    change (map ?f ?l) with (f <$> l) in Hs.
    apply list_elem_of_fmap in Hs as (s0 & -> & _). reflexivity.
  - intros sa Hsa. apply take_elem_of, elem_of_submissions in Hsa.
    destruct Hsa as [(x & Hx & _) | [(x & Hx & _) | [(x & Hx & _) |
                    [(x & Hx & _) | (x & Hx & _ & Hin)]]]]; try discriminate.
    injection Hx as ->.
    rewrite Hop in Hin. cbn [overridden serviceAccounts] in Hin.
    change (map ?f ?l) with (f <$> l) in Hin.
    apply list_elem_of_fmap in Hin as (sa0 & -> & Hin0).
    destruct (skipped request sa0) eqn:Hs.
    + left. rewrite skipped_defaultServiceAccount. exact Hs.
    + right. exists sa0. split; [exact Hin0 |].
      unfold defaultServiceAccount.
      cbn [v1.SetServiceAccountMeta v1.ServiceAccountMeta].
      exact (Hpinned (v1.ServiceAccountMeta sa0)).
Qed.

Lemma submissions_deleted (request : Request) (t : tektonPipelines) (o : Object) :
  o ∈ submissions request t -> o ∈ allObjects (overridden request t).
Proof.
  intros Ho. apply elem_of_submissions in Ho.
  unfold allObjects, overridden.
  cbn [pipelines configMaps roleBindings serviceAccounts clusterRoles].
  change (@map) with (fun A B => @fmap list _ A B). cbv beta.
  rewrite !elem_of_app, !list_elem_of_fmap.
  destruct Ho as [(x & -> & Hin) | [(x & -> & Hin) | [(x & -> & Hin) |
                 [(x & -> & Hin) | (x & -> & Hskip & Hin)]]]].
  - do 4 right. exists x. auto.
  - left. eexists. split; [reflexivity |].
    apply list_elem_of_fmap. exists x. auto.
  - right. left. eexists. split; [reflexivity |].
    apply list_elem_of_fmap. exists x. auto.
  - do 2 right. left. eexists. split; [reflexivity |].
    apply list_elem_of_fmap. exists x. auto.
  - do 3 right. left. eexists. split; [reflexivity |].
    apply list_elem_of_fmap. exists x. rewrite Hskip. auto.
Qed.

(** X14: cleanup reaches what a pass submitted.  When the builder leaves
    the resources it is given as they are, after a pass that returned
    results with the feature gate on, [Cleanup], for whatever request,
    requests the deletion of every object that the pass submitted, in the
    namespace it was submitted in. *)
Theorem Cleanup_after_Reconcile (request request' : Request) (w w1 : World)
  (results : list ReconcileResult) :
  keepsResource ->
  deployTektonTaskResources request = Some true ->
  Reconcile request w = (Done results, w1) ->
  exists submitted : list Object,
    calls w1 = calls w ++ map CallCreateOrUpdate submitted
    /\ forall o, o ∈ submitted ->
                 CallDelete o ∈ calls (snd (Cleanup request' w1)).
Proof.
  intros Hkeeps Hgate Hrun.
  exists (submissions request (operand w)).
  split; [exact (Reconcile_done_calls request w w1 results Hgate Hrun) |].
  intros o Ho. rewrite Cleanup_objects.
  destruct (DeleteAll_all request' (allObjects (operand w1)) w1)
    as (res & w2 & -> & _ & Hcalls & _).
  cbn [snd]. rewrite Hcalls. apply elem_of_app. right.
  change (map CallDelete ?l) with (CallDelete <$> l).
  apply list_elem_of_fmap. exists o. split; [reflexivity |].
  rewrite (Reconcile_overridden request w w1 results Hkeeps Hgate Hrun).
  apply submissions_deleted. exact Ho.
Qed.
End TwoPasses.

(** ** The further properties on the sample bundle *)

Lemma run_done {A S} (run : outcome (list A) * S) :
  isDone (fst run) = true -> run = (Done (resultsOf (fst run)), snd run).
Proof. destruct run as [[results | e |] w]; cbn; intros H; congruence. Qed.

(** The pass of [fake.moveRequest] over an empty cluster, and the same
    pass run a second time. *)
Local Notation moved :=
  (@Reconcile (fake.env "1.3.0") fake.moveRequest (fake.world "1.3.0" [])).
Local Notation movedAgain :=
  (@Reconcile (fake.env "1.3.0") fake.moveRequest (snd moved)).

Lemma Reconcile_order_witness :
  calls (snd moved)
  = calls (fake.world "1.3.0" [])
    ++ map CallCreateOrUpdate
         (map OClusterRole (clusterRoles (operand (fake.world "1.3.0" [])))
          ++ map (fun p => OPipeline (overridePipeline fake.moveRequest p))
                 (pipelines (operand (fake.world "1.3.0" [])))
          ++ map (fun cm => OConfigMap (overrideConfigMap fake.moveRequest cm))
                 (configMaps (operand (fake.world "1.3.0" [])))
          ++ map (fun rb => ORoleBinding (patchRoleBinding fake.moveRequest rb))
                 (roleBindings (operand (fake.world "1.3.0" [])))
          ++ map (fun sa => OServiceAccount
                              (defaultServiceAccount fake.moveRequest sa))
                 (filter (fun sa => skipped fake.moveRequest sa = false)
                         (serviceAccounts (operand (fake.world "1.3.0" [])))))
  /\ length (resultsOf (fst moved))
     = length (clusterRoles (operand (fake.world "1.3.0" [])))
       + length (pipelines (operand (fake.world "1.3.0" [])))
       + length (configMaps (operand (fake.world "1.3.0" [])))
       + length (roleBindings (operand (fake.world "1.3.0" [])))
       + length (filter (fun sa => skipped fake.moveRequest sa = false)
                        (serviceAccounts (operand (fake.world "1.3.0" [])))).
Proof.
  apply (@Reconcile_order (fake.env "1.3.0") fake.moveRequest
           (fake.world "1.3.0" []) (resultsOf (fst moved))).
  - reflexivity.
  - apply (f_equal fst (run_done moved ltac:(vm_compute; reflexivity))).
Defined.

Lemma Reconcile_without_override_witness :
  exists submitted : list Object,
    calls (snd (@Reconcile (fake.env "1.3.0") fake.revertRequest
                           (fake.world "1.3.0" [])))
    = calls (fake.world "1.3.0" []) ++ map CallCreateOrUpdate submitted
    /\ (forall p, OPipeline p ∈ submitted ->
                  p ∈ pipelines (operand (fake.world "1.3.0" [])))
    /\ (forall cm, OConfigMap cm ∈ submitted ->
                   cm ∈ configMaps (operand (fake.world "1.3.0" [])))
    /\ (forall results,
          fst (@Reconcile (fake.env "1.3.0") fake.revertRequest
                          (fake.world "1.3.0" [])) = Done results ->
          deployTektonTaskResources fake.revertRequest = Some true ->
          length results
          = length (clusterRoles (operand (fake.world "1.3.0" [])))
            + length (pipelines (operand (fake.world "1.3.0" [])))
            + length (configMaps (operand (fake.world "1.3.0" [])))
            + length (roleBindings (operand (fake.world "1.3.0" [])))
            + length (serviceAccounts (operand (fake.world "1.3.0" [])))).
Proof.
  apply (@Reconcile_without_override (fake.env "1.3.0") fake.revertRequest
           (fake.world "1.3.0" [])).
  intros tp Htp. cbn in Htp. discriminate.
Defined.

Lemma Reconcile_failure_witness :
  logs (snd (@Reconcile runs.denyEnv fake.moveRequest runs.denyWorld))
  = logs runs.denyWorld
  /\ ((CrdExists fake.moveRequest tektonCrd = false
       /\ "rolebindings is forbidden" = "Tekton CRD tasks.tekton.dev does not exist"
       /\ snd (@Reconcile runs.denyEnv fake.moveRequest runs.denyWorld)
          = runs.denyWorld)
      \/ exists (k : nat) (f : ReconcileFunc) (o : Object)
                (results : list ReconcileResult) (wk : @World runs.denyEnv),
           passFuncs fake.moveRequest (operand runs.denyWorld) !! k = Some f
           /\ submissions fake.moveRequest (operand runs.denyWorld) !! k = Some o
           /\ @CollectResourceStatus runs.denyEnv fake.moveRequest
                (take k (passFuncs fake.moveRequest (operand runs.denyWorld)))
                runs.denyWorld
              = (Done results, wk)
           /\ length results = k
           /\ call f fake.moveRequest wk
              = (Fail "rolebindings is forbidden",
                 snd (@Reconcile runs.denyEnv fake.moveRequest runs.denyWorld))
           /\ calls wk
              = calls runs.denyWorld
                ++ map CallCreateOrUpdate
                     (take k (submissions fake.moveRequest (operand runs.denyWorld)))
           /\ calls (snd (@Reconcile runs.denyEnv fake.moveRequest runs.denyWorld))
              = calls wk ++ [CallCreateOrUpdate o]).
Proof.
  apply (@Reconcile_failure runs.denyEnv fake.moveRequest runs.denyWorld
           "rolebindings is forbidden").
  vm_compute. reflexivity.
Defined.

Lemma Reconcile_nothing_to_submit_witness :
  @Reconcile (fake.env "1.3.0") fake.moveRequest runs.bareWorld
  = (Done [], runs.bareWorld).
Proof.
  apply (@Reconcile_nothing_to_submit (fake.env "1.3.0") fake.moveRequest
           runs.bareWorld); try reflexivity.
  intros sa Hsa. apply list_elem_of_singleton in Hsa. subst sa. reflexivity.
Defined.

Lemma Reconcile_twice_witness :
  operand (snd movedAgain) = operand (snd moved)
  /\ exists submitted : list Object,
       calls (snd moved)
       = calls (fake.world "1.3.0" []) ++ map CallCreateOrUpdate submitted
       /\ calls (snd movedAgain)
          = calls (snd moved) ++ map CallCreateOrUpdate submitted.
Proof.
  apply (@Reconcile_twice (fake.env "1.3.0") fake.moveRequest
           (fake.world "1.3.0" []) (snd moved) (snd movedAgain)
           (resultsOf (fst moved)) (resultsOf (fst movedAgain))).
  - apply fake_keepsResource.
  - reflexivity.
  - apply (run_done moved). vm_compute. reflexivity.
  - apply (run_done movedAgain). vm_compute. reflexivity.
Defined.

Lemma Reconcile_override_sticks_witness :
  exists submitted : list Object,
    calls (snd (@Reconcile (fake.env "1.3.0") runs.elsewhereRequest (snd moved)))
    = calls (snd moved) ++ map CallCreateOrUpdate submitted
    /\ (forall p, OPipeline p ∈ submitted ->
                  metav1.Namespace (pipeline.ObjectMeta p) = "myapp")
    /\ (forall cm, OConfigMap cm ∈ submitted ->
                   metav1.Namespace (v1.ConfigMapMeta cm) = "myapp")
    /\ (forall results',
          fst (@Reconcile (fake.env "1.3.0") runs.elsewhereRequest (snd moved))
          = Done results' ->
          deployTektonTaskResources runs.elsewhereRequest = Some true ->
          forall p, p ∈ pipelines (operand (snd moved)) ->
                    OPipeline p ∈ submitted).
Proof.
  apply (@Reconcile_override_sticks (fake.env "1.3.0") fake.moveRequest
           runs.elsewhereRequest (fake.world "1.3.0" []) (snd moved)
           (resultsOf (fst moved)) {| Namespace := "myapp" |}).
  - apply fake_keepsResource.
  - reflexivity.
  - reflexivity.
  - reflexivity.
  - apply (run_done moved). vm_compute. reflexivity.
  - intros tp Htp. cbn in Htp. discriminate.
Defined.

Lemma Reconcile_default_namespace_sticks_witness :
  exists submitted : list Object,
    calls (snd (@Reconcile (fake.env "1.3.0") runs.elsewhereRequest (snd moved)))
    = calls (snd moved) ++ map CallCreateOrUpdate submitted
    /\ (forall rb, ORoleBinding rb ∈ submitted ->
          exists rb0,
            rb0 ∈ roleBindings (operand (fake.world "1.3.0" []))
            /\ metav1.Name (rbac.RoleBindingMeta rb)
               = metav1.Name (rbac.RoleBindingMeta rb0)
            /\ metav1.Namespace (rbac.RoleBindingMeta rb)
               = (if String.eqb (metav1.Namespace (rbac.RoleBindingMeta rb0)) ""
                  then "kubevirt"
                  else metav1.Namespace (rbac.RoleBindingMeta rb0))
            /\ Forall (fun subject => rbac.Namespace subject = "ssp-system")
                      (rbac.Subjects rb))
    /\ (forall sa, OServiceAccount sa ∈ submitted ->
          skipped fake.moveRequest sa = true
          \/ exists sa0,
               sa0 ∈ serviceAccounts (operand (fake.world "1.3.0" []))
               /\ metav1.Name (v1.ServiceAccountMeta sa)
                  = metav1.Name (v1.ServiceAccountMeta sa0)
               /\ metav1.Namespace (v1.ServiceAccountMeta sa)
                  = (if String.eqb (metav1.Namespace (v1.ServiceAccountMeta sa0)) ""
                     then "kubevirt"
                     else metav1.Namespace (v1.ServiceAccountMeta sa0))).
Proof.
  apply (@Reconcile_default_namespace_sticks (fake.env "1.3.0") fake.moveRequest
           runs.elsewhereRequest (fake.world "1.3.0" []) (snd moved)
           (resultsOf (fst moved))).
  - apply fake_keepsResource.
  - reflexivity.
  - reflexivity.
  - apply (run_done moved). vm_compute. reflexivity.
Defined.

Lemma Cleanup_after_Reconcile_witness :
  exists submitted : list Object,
    calls (snd moved)
    = calls (fake.world "1.3.0" []) ++ map CallCreateOrUpdate submitted
    /\ forall o, o ∈ submitted ->
         CallDelete o
         ∈ calls (snd (@Cleanup (fake.env "1.3.0") runs.elsewhereRequest
                                (snd moved))).
Proof.
  apply (@Cleanup_after_Reconcile (fake.env "1.3.0") fake.moveRequest
           runs.elsewhereRequest (fake.world "1.3.0" []) (snd moved)
           (resultsOf (fst moved))).
  - apply fake_keepsResource.
  - reflexivity.
  - apply (run_done moved). vm_compute. reflexivity.
Defined.

(** ** The watches and the CRD *)

Section Watches.
Context {Env : Environment}.

Lemma Reconcile_calls_closed (request : Request) (w : World) :
  reachesEngine request = false ->
  calls (snd (Reconcile request w)) = calls w.
Proof.
  unfold reachesEngine. intros Hclosed.
  destruct (deployTektonTaskResources request) as [[|] |] eqn:Hgate.
  - rewrite (Reconcile_crd_missing_eq request w Hgate Hclosed). reflexivity.
  - rewrite (Reconcile_gate_off_eq request w Hgate). reflexivity.
  - rewrite (Reconcile_nil_featureGates request w (featureGates_nil request Hgate)).
    reflexivity.
Qed.

(** X15: an object of a kind whose watch waits for a CRD is submitted by
    [Reconcile] only when the request lists that CRD: the CRD the watch on
    pipelines names is the one [Reconcile] asks for before it submits
    anything. *)
Theorem watched_crd_exists (t : tektonPipelines) (request : Request) (w : World)
  (c : GatewayCall) (wt : operands.WatchType) :
  c ∈ calls (snd (Reconcile request w)) ->
  c ∉ calls w ->
  wt ∈ WatchClusterTypes t ->
  kindOf (operands.Object wt) = kindOf (callObject c) ->
  operands.Crd wt <> "" ->
  CrdExists request (operands.Crd wt) = true.
Proof.
  intros Hc Hnew Hwt _ Hcrd.
  destruct (reachesEngine request) eqn:Hopen.
  - assert (Hexists : CrdExists request tektonCrd = true).
    { unfold reachesEngine in Hopen.
      destruct (deployTektonTaskResources request) as [[|] |];
        [exact Hopen | discriminate | discriminate]. }
    unfold WatchClusterTypes in Hwt.
    repeat (apply elem_of_cons in Hwt as [-> | Hwt]);
      try (exfalso; apply Hcrd; reflexivity).
    + exact Hexists.
    + apply elem_of_nil in Hwt. contradiction.
  - rewrite (Reconcile_calls_closed request w Hopen) in Hc. contradiction.
Qed.
End Watches.

Lemma watched_crd_exists_witness :
  CrdExists fake.moveRequest "tasks.tekton.dev" = true.
Proof.
  apply (@watched_crd_exists (fake.env "1.3.0") (New fake.bundle) fake.moveRequest
           (fake.world "1.3.0" [])
           (CallCreateOrUpdate
              (OPipeline (overridePipeline fake.moveRequest fake.installer)))
           {| operands.Object := OPipeline zeroPipeline;
              operands.Crd := tektonCrd;
              operands.WatchFullObject := true |}).
  - apply list_elem_of_lookup. exists 1. vm_compute. reflexivity.
  - apply not_elem_of_nil.
  - left.
  - reflexivity.
  - discriminate.
Defined.
